(** * Diagnostics reconciler of the BitBake extension

    A shallow embedding of [client/src/language/diagnosticsSupport.ts]:
    the diagnostics of an embedded-language document (Python or Bash text
    generated from a recipe) are mapped back onto the recipe, filtered by a
    chain of ignore rules, partly reworded, and stored in one of two
    diagnostic collections.

    JavaScript strings are modelled by [string]; every character the rules
    look at is ASCII.  One character of a [string] stands for one code unit
    of the JavaScript string, so that [String.length] is its [length] and
    counts as the columns of a [Position] do.  Promises are modelled by
    [Outcome]: a promise either
    resolves with a value or rejects.  The host editor and the sibling
    modules the file calls are gathered in the record [Host]. *)

From Stdlib Require Import Ascii String List NArith Lia Bool.
From stdpp Require Import base option list gmap strings.

Local Open Scope list_scope.
Local Open Scope string_scope.
Local Arguments String.append !_ _ / : simpl nomatch.

(** ** JavaScript strings *)

Module JsString.

(** The rest of [s] after the prefix [p], when [s] starts with [p]. *)
Fixpoint dropPrefix (p s : string) : option string :=
  match p, s with
  | EmptyString, _ => Some s
  | String a p', String b s' => if Ascii.eqb a b then dropPrefix p' s' else None
  | String _ _, EmptyString => None
  end.

(** [s.startsWith(p)] *)
Definition startsWith (s p : string) : bool :=
  match dropPrefix p s with
  | Some _ => true
  | None => false
  end.

(** [s.includes(t)]: [t] occurs somewhere in [s]. *)
Fixpoint includes (s t : string) : bool :=
  startsWith s t ||
  match s with
  | EmptyString => false
  | String _ s' => includes s' t
  end.

(** [s.slice(0, n)] for [0 <= n]. *)
Definition slice0 (s : string) (n : nat) : string := String.substring 0 n s.

(** [s.slice(i, j)] for [0 <= i <= j]. *)
Definition slice (s : string) (i j : nat) : string := String.substring i (j - i) s.

(** [\d] *)
Definition isDigit (c : ascii) : bool :=
  let n := nat_of_ascii c in (48 <=? n)%nat && (n <=? 57)%nat.

(** [\w], that is [[A-Za-z0-9_]] *)
Definition isWord (c : ascii) : bool :=
  let n := nat_of_ascii c in
  isDigit c
  || ((65 <=? n)%nat && (n <=? 90)%nat)
  || ((97 <=? n)%nat && (n <=? 122)%nat)
  || (n =? 95)%nat.

(** [Number(ds)] for a string [ds] of decimal digits.  The only use made
    of the result is a comparison with 7, which the rounding of large
    values to a double does not change; the exact value is kept. *)
Fixpoint digitsValue (acc : N) (ds : string) : N :=
  match ds with
  | EmptyString => acc
  | String c ds' => digitsValue (acc * 10 + (N_of_ascii c - 48))%N ds'
  end.

Definition Number (ds : string) : N := digitsValue 0%N ds.

End JsString.

(** ** The fragment of regular expressions the file uses

    Literals, a greedy [c+] over a character class, named groups,
    concatenation and the two anchors.  The matcher backtracks as the
    JavaScript one does: [c+] first tries to take one more character and
    only then hands over to the rest of the pattern. *)

Module RegExp.

Inductive t : Type :=
| Lit (s : string)
| Plus (cls : ascii -> bool)
| Group (name : string) (r : t)
| Seq (r1 r2 : t)
| Bol
| Eol.

(** Positions of the named groups matched so far, latest first. *)
Definition Captures : Type := list (string * (nat * nat)).

(** What [String.prototype.match] reports for a pattern without the [g]
    flag: where the match starts, where it ends, the named groups. *)
Record Match : Type := mkMatch {
  index : nat;
  lastIndex : nat;
  captures : Captures
}.

Section Run.
Context {R : Type}.

Fixpoint plus (cls : ascii -> bool) (k : nat -> string -> option R)
    (pos : nat) (s : string) : option R :=
  match s with
  | EmptyString => None
  | String c s' =>
      if cls c then
        match plus cls k (S pos) s' with
        | Some r => Some r
        | None => k (S pos) s'
        end
      else None
  end.

Fixpoint run (r : t) (caps : Captures) (pos : nat) (s : string)
    (k : Captures -> nat -> string -> option R) : option R :=
  match r with
  | Lit l =>
      match JsString.dropPrefix l s with
      | Some s' => k caps (pos + String.length l) s'
      | None => None
      end
  | Plus cls => plus cls (k caps) pos s
  | Group name r' =>
      run r' caps pos s (fun caps' pos' s' => k ((name, (pos, pos')) :: caps') pos' s')
  | Seq r1 r2 =>
      run r1 caps pos s (fun caps' pos' s' => run r2 caps' pos' s' k)
  | Bol => if (pos =? 0)%nat then k caps pos s else None
  | Eol => match s with EmptyString => k caps pos s | String _ _ => None end
  end.
End Run.

(** A match that starts exactly at [pos], [s] being the input from there. *)
Definition matchAt (r : t) (pos : nat) (s : string) : option Match :=
  run r [] pos s (fun caps e _ => Some (mkMatch pos e caps)).

(** The leftmost match at or after [pos]. *)
Fixpoint searchFrom (r : t) (pos : nat) (s : string) : option Match :=
  match matchAt r pos s with
  | Some m => Some m
  | None =>
      match s with
      | EmptyString => None
      | String _ s' => searchFrom r (S pos) s'
      end
  end.

(** [input.match(r)] *)
Definition exec (r : t) (input : string) : option Match := searchFrom r 0 input.

Fixpoint lookupGroup (name : string) (caps : Captures) : option (nat * nat) :=
  match caps with
  | [] => None
  | (n, span) :: caps' => if String.eqb n name then Some span else lookupGroup name caps'
  end.

(** [match.groups.name] *)
Definition group (input : string) (m : Match) (name : string) : option string :=
  match lookupGroup name (captures m) with
  | Some (i, j) => Some (JsString.slice input i j)
  | None => None
  end.

(** [match[0]] *)
Definition matched (input : string) (m : Match) : string :=
  JsString.slice input (index m) (lastIndex m).

Fixpoint seq (rs : list t) : t :=
  match rs with
  | [] => Lit ""
  | [r] => r
  | r :: rs' => Seq r (seq rs')
  end.

End RegExp.

(** ** Data model *)

(** ['python' | 'bash'], from [lib/src/types/embedded-languages]. *)
Inductive EmbeddedLanguageType : Type := python | bash.

Global Instance EmbeddedLanguageType_eq_dec : EqDecision EmbeddedLanguageType.
Proof. solve_decision. Defined.

(** [vscode.Uri], reduced to the two views the file takes of it. *)
Record Uri : Type := mkUri {
  toString : string;
  fsPath : string
}.

Record Position : Type := mkPosition {
  line : nat;
  character : nat
}.

Record Range : Type := mkRange {
  start : Position;
  end_ : Position
}.

Record Location : Type := mkLocation {
  loc_uri : Uri;
  loc_range : Range
}.

Inductive DiagnosticSeverity : Type :=
| SeverityError | SeverityWarning | SeverityInformation | SeverityHint.

Inductive DiagnosticTag : Type := Unnecessary | Deprecated.

Record DiagnosticRelatedInformation : Type := mkRelated {
  rel_location : Location;
  rel_message : string
}.

(** [string | number] *)
Inductive CodeValue : Type :=
| CodeString (s : string)
| CodeNumber (n : N).

(** The [code] of a diagnostic:
    [string | number | { value: string | number; target: Uri } | undefined]. *)
Inductive DiagnosticCode : Type :=
| CodeUndefined
| CodePlain (v : CodeValue)
| CodeObject (value : CodeValue) (target : Uri).

(** [vscode.Diagnostic].  [hasDiagnosticCode] is the property the
    anonymous-function rule reads through a cast to [any]; [None] stands for
    a diagnostic that has no such property.  [otherProperties] holds whatever
    further own properties the object carries. *)
Record Diagnostic : Type := mkDiagnostic {
  range : Range;
  message : string;
  severity : DiagnosticSeverity;
  source : option string;
  code : DiagnosticCode;
  relatedInformation : option (list DiagnosticRelatedInformation);
  tags : option (list DiagnosticTag);
  hasDiagnosticCode : option bool;
  otherProperties : list (string * string)
}.

(** [vscode.TextDocument]: its identity and [getText(range)]. *)
Record TextDocument : Type := mkTextDocument {
  doc_uri : Uri;
  getText : Range -> string
}.

(** [EmbeddedLanguageDocInfos], from [EmbeddedLanguageDocsManager]. *)
Record EmbeddedLanguageDocInfos : Type := mkInfos {
  info_uri : Uri;
  characterIndexes : list nat
}.

(** ** Promises *)

Inductive Outcome (A : Type) : Type :=
| Resolved (a : A)
| Rejected.

Arguments Resolved {A} a.
Arguments Rejected {A}.

Global Instance Outcome_ret : MRet Outcome := fun A a => Resolved a.

Global Instance Outcome_bind : MBind Outcome := fun A B f m =>
  match m with
  | Resolved a => f a
  | Rejected => Rejected
  end.

(** [Promise.all]: rejects as soon as one of the promises does. *)
Fixpoint promiseAll {A : Type} (ps : list (Outcome A)) : Outcome (list A) :=
  match ps with
  | [] => Resolved []
  | p :: ps' => a ← p; as' ← promiseAll ps'; mret (a :: as')
  end.

(** ** The host editor and the sibling modules

    Everything [diagnosticsSupport.ts] asks of its surroundings.  The
    answers are taken to stay the same while one call runs. *)

Record Host : Type := mkHost {
  (** [path.extname] *)
  extname : string -> string;
  (** [embeddedLanguageDocsManager.getOriginalUri] *)
  getOriginalUri : Uri -> option Uri;
  (** [vscode.workspace.textDocuments] *)
  textDocuments : list TextDocument;
  (** [embeddedLanguageDocsManager.getEmbeddedLanguageDocInfos] *)
  getEmbeddedLanguageDocInfos : Uri -> EmbeddedLanguageType -> option EmbeddedLanguageDocInfos;
  (** [vscode.workspace.openTextDocument], by file system path *)
  openTextDocument : string -> Outcome TextDocument;
  (** [vscode.languages.getDiagnostics(uri)] *)
  getDiagnostics : Uri -> list Diagnostic;
  (** [vscode.languages.getDiagnostics()] *)
  getAllDiagnostics : list (Uri * list Diagnostic);
  (** [getOriginalDocRange] of [utils/embeddedLanguagesUtils] *)
  getOriginalDocRange : TextDocument -> TextDocument -> list nat -> Range -> option Range;
  (** [requestsManager.getEmbeddedLanguageTypeOnPosition] *)
  getEmbeddedLanguageTypeOnPosition : string -> Position -> Outcome (option EmbeddedLanguageType);
  (** [requestsManager.getDefinition] *)
  getDefinition : TextDocument -> Position -> Outcome (list Location);
  (** [commonDirectoriesVariables] of [lib/src/availableVariables] *)
  commonDirectoriesVariables : gset string
}.

(** ** The two diagnostic collections *)

(** [diagnosticCollections]: for each language, the diagnostics stored per
    original document, keyed by the text of its URI. *)
Record DiagnosticCollections : Type := mkCollections {
  bash_collection : gmap string (list Diagnostic);
  python_collection : gmap string (list Diagnostic)
}.

(** [diagnosticCollection.name] *)
Definition collectionName (t : EmbeddedLanguageType) : string :=
  match t with
  | bash => "bitbake-bash"
  | python => "bitbake-python"
  end.

(** One call of [diagnosticCollection.set(uri, diagnostics)]. *)
Record SetCall : Type := mkSetCall {
  channel : EmbeddedLanguageType;
  target : Uri;
  diagnostics : list Diagnostic
}.

(** [diagnosticCollections[t].set(uri, ds)]: the entry of [uri] is replaced. *)
Definition collectionSet (t : EmbeddedLanguageType) (uri : Uri) (ds : list Diagnostic)
    (dc : DiagnosticCollections) : DiagnosticCollections :=
  match t with
  | bash => mkCollections (<[toString uri := ds]> (bash_collection dc)) (python_collection dc)
  | python => mkCollections (bash_collection dc) (<[toString uri := ds]> (python_collection dc))
  end.

(** ** The rules *)

Definition supportedSources : list string := ["Flake8"; "Pylance"; "Pylint"; "shellcheck"].

(** [diagnostic.source?.includes(s) === true] *)
Definition sourceIncludes (diagnostic : Diagnostic) (s : string) : bool :=
  match source diagnostic with
  | Some src => JsString.includes src s
  | None => false
  end.

(** [v === code] for a string [code] *)
Definition codeValueIs (v : CodeValue) (code : string) : bool :=
  match v with
  | CodeString s => String.eqb s code
  | CodeNumber _ => false
  end.

(** The parameters [source] and [code] of the source are [src] and [c]
    here, the record projections having taken their names. *)
Definition hasSourceWithCode (diagnostic : Diagnostic) (src c : string) : bool :=
  if negb (sourceIncludes diagnostic src) then false
  else
    match code diagnostic with
    | CodePlain v => codeValueIs v c
    | CodeObject value _ => codeValueIs value c
    | CodeUndefined => false
    end.

Definition checkHasSupportedSource (diagnostic : Diagnostic) : bool :=
  existsb
    (fun supportedSource =>
       match source diagnostic with
       | Some src => JsString.includes src supportedSource
       | None => false
       end)
    supportedSources.

Definition checkIsAlwaysIgnoredDiagnostic (diagnostic : Diagnostic) : Outcome bool :=
  if hasSourceWithCode diagnostic "Flake8" "W391"
     || hasSourceWithCode diagnostic "Pylint" "C0114:missing-module-docstring"
     || hasSourceWithCode diagnostic "Pylint" "C0116:missing-function-docstring"
     || hasSourceWithCode diagnostic "Pylint" "C0305:trailing-newlines"
     || hasSourceWithCode diagnostic "Pylint" "C0415:import-outside-toplevel"
     || hasSourceWithCode diagnostic "Flake8" "E501"
     || hasSourceWithCode diagnostic "Pylint" "W0104:pointless-statement"
     || hasSourceWithCode diagnostic "Pylint" "W0106:expression-not-assigned"
     || hasSourceWithCode diagnostic "Flake8" "E203"
     || hasSourceWithCode diagnostic "Flake8" "E211"
     || hasSourceWithCode diagnostic "Flake8" "E302"
     || hasSourceWithCode diagnostic "Flake8" "E303"
  then mret true
  else mret false.

(** The text ["__anonymous" is not accessed], quotation marks included. *)
Definition anonymousNotAccessed : string :=
  String "034"%char ("__anonymous" ++ String "034"%char " is not accessed").

Definition checkIsIgnoredDiagnosticOnAnonymousFunctionFirstLine
    (diagnostic : Diagnostic) : Outcome bool :=
  if sourceIncludes diagnostic "Pylance"
     && match hasDiagnosticCode diagnostic with Some false => true | _ => false end
     && String.eqb (message diagnostic) anonymousNotAccessed
  then mret true
  else mret false.

Definition checkIsIgnoredDiagnosticOnPythonUndefinedVariable (h : Host)
    (diagnostic : Diagnostic) (originalTextDocument : TextDocument)
    (adjustedRange : Range) : Outcome bool :=
  if negb (hasSourceWithCode diagnostic "Flake8" "F821")
     && negb (hasSourceWithCode diagnostic "Pylance" "reportUndefinedVariable")
     && negb (hasSourceWithCode diagnostic "Pylint" "E0602:undefined-variable")
  then mret false
  else
    definition ← getDefinition h originalTextDocument
                   (mkPosition (line (start adjustedRange))
                               (character (start adjustedRange) + 1));
    mret (0 <? length definition)%nat.

(** [/\w+/] *)
Definition wordRegex : RegExp.t := RegExp.Plus JsString.isWord.

(** [/^(?<variableName>\w+) is referenced but not assigned\.$/] *)
Definition notAssignedRegex : RegExp.t :=
  RegExp.seq [RegExp.Bol;
              RegExp.Group "variableName" (RegExp.Plus JsString.isWord);
              RegExp.Lit " is referenced but not assigned.";
              RegExp.Eol].

(** The position [checkIsIgnoredShellcheckSc2154] asks the definition of. *)
Definition sc2154Position (originalTextDocument : TextDocument)
    (adjustedRange : Range) : Position :=
  let textOnRange := getText originalTextDocument adjustedRange in
  match RegExp.exec wordRegex textOnRange with
  | None => end_ adjustedRange
  | Some m =>
      if (RegExp.index m =? 0)%nat then end_ adjustedRange
      else
        let actualVariable := RegExp.matched textOnRange m in
        let actualEndOfVariable :=
          (character (start adjustedRange) + RegExp.index m
           + String.length actualVariable)%nat in
        mkPosition (line (end_ adjustedRange)) actualEndOfVariable
  end.

(** [commonDirectoriesVariables.has(variableName)], [None] being
    [undefined], which the set of strings does not hold. *)
Definition commonDirectoriesHas (h : Host) (variableName : option string) : bool :=
  match variableName with
  | Some v => bool_decide (v ∈ commonDirectoriesVariables h)
  | None => false
  end.

(** [message.match(...)?.groups?.variableName] in
    [checkIsIgnoredShellcheckSc2154] *)
Definition sc2154VariableName (message : string) : option string :=
  match RegExp.exec notAssignedRegex message with
  | Some m => RegExp.group message m "variableName"
  | None => None
  end.

Definition checkIsIgnoredShellcheckSc2154 (h : Host)
    (diagnostic : Diagnostic) (originalTextDocument : TextDocument)
    (adjustedRange : Range) : Outcome bool :=
  if negb (hasSourceWithCode diagnostic "shellcheck" "SC2154") then mret false
  else
    let position := sc2154Position originalTextDocument adjustedRange in
    definition ← getDefinition h originalTextDocument position;
    if (0 <? length definition)%nat then mret true
    else
      let message := message diagnostic in
      let variableName := sc2154VariableName message in
      mret (commonDirectoriesHas h variableName).

Definition checkIsIgnoredDiagnostic (h : Host)
    (diagnostic : Diagnostic) (originalTextDocument : TextDocument)
    (adjustedRange : Range) : Outcome bool :=
  r1 ← checkIsAlwaysIgnoredDiagnostic diagnostic;
  if r1 : bool then mret true
  else
    r2 ← checkIsIgnoredDiagnosticOnAnonymousFunctionFirstLine diagnostic;
    if r2 : bool then mret true
    else
      r3 ← checkIsIgnoredDiagnosticOnPythonUndefinedVariable h diagnostic
             originalTextDocument adjustedRange;
      if r3 : bool then mret true
      else
        r4 ← checkIsIgnoredShellcheckSc2154 h diagnostic
               originalTextDocument adjustedRange;
        if r4 : bool then mret true else mret false.

(** ** The import-warning fixer *)

(** [/redefinition of unused '(?:\w+)'(?<textToRemove> from line (?<lineNumber>\d+))/] *)
Definition redefinitionRegex : RegExp.t :=
  RegExp.seq [RegExp.Lit "redefinition of unused '";
              RegExp.Plus JsString.isWord;
              RegExp.Lit "'";
              RegExp.Group "textToRemove"
                (RegExp.Seq (RegExp.Lit " from line ")
                            (RegExp.Group "lineNumber" (RegExp.Plus JsString.isDigit)))].

(** [/Reimport '(?:\w+)'(?<textToRemove> \(imported line (?<lineNumber>\d+)\))/] *)
Definition reimportRegex : RegExp.t :=
  RegExp.seq [RegExp.Lit "Reimport '";
              RegExp.Plus JsString.isWord;
              RegExp.Lit "'";
              RegExp.Group "textToRemove"
                (RegExp.seq [RegExp.Lit " (imported line ";
                             RegExp.Group "lineNumber" (RegExp.Plus JsString.isDigit);
                             RegExp.Lit ")"])].

(** [/Redefining name '(?:\w+)'(?<textToRemove> from outer scope \(line (?<lineNumber>\d+)\))/] *)
Definition redefiningRegex : RegExp.t :=
  RegExp.seq [RegExp.Lit "Redefining name '";
              RegExp.Plus JsString.isWord;
              RegExp.Lit "'";
              RegExp.Group "textToRemove"
                (RegExp.seq [RegExp.Lit " from outer scope (line ";
                             RegExp.Group "lineNumber" (RegExp.Plus JsString.isDigit);
                             RegExp.Lit ")"])].

(** The inner function [fix].  [Number(undefined)] is [NaN], which is not
    [<= 7]: without a match the message is returned as it is. *)
Definition fix_ (diagnostic : Diagnostic) (regex : RegExp.t) : string :=
  let embeddedLanguageDocImportLine := 7%N in
  let newText := " (imported by BitBake)" in
  match RegExp.exec regex (message diagnostic) with
  | None => message diagnostic
  | Some m =>
      match RegExp.group (message diagnostic) m "lineNumber",
            RegExp.group (message diagnostic) m "textToRemove" with
      | Some lineNumber, Some textToRemove =>
          if (JsString.Number lineNumber <=? embeddedLanguageDocImportLine)%N then
            JsString.slice0 (message diagnostic)
              (String.length (message diagnostic) - String.length textToRemove)
            ++ newText
          else message diagnostic
      | _, _ => message diagnostic
      end
  end.

Definition fixDiagnosticMessagePythonImport (diagnostic : Diagnostic) : string :=
  if hasSourceWithCode diagnostic "Flake8" "F811" then fix_ diagnostic redefinitionRegex
  else if hasSourceWithCode diagnostic "Pylint" "W0404:reimported" then
    fix_ diagnostic reimportRegex
  else if hasSourceWithCode diagnostic "Pylint" "W0621:redefined-outer-name" then
    fix_ diagnostic redefiningRegex
  else message diagnostic.

(** ** The order in which concurrent tasks complete

    The tasks started by one [Promise.all] complete in an order the host
    decides.  [time i] is the moment the task of index [i] completes; tasks
    completing at the same moment keep the order in which they were
    started. *)

Fixpoint insertByTime {A : Type} (t : nat) (a : A) (l : list (nat * A)) : list (nat * A) :=
  match l with
  | [] => [(t, a)]
  | (t', a') :: l' =>
      if (t <=? t')%nat then (t, a) :: l else (t', a') :: insertByTime t a l'
  end.

Fixpoint timedFrom {A : Type} (time : nat -> nat) (i : nat) (l : list A) : list (nat * A) :=
  match l with
  | [] => []
  | a :: l' => insertByTime (time i) a (timedFrom time (S i) l')
  end.

Definition completionOrder {A : Type} (time : nat -> nat) (l : list A) : list A :=
  map snd (timedFrom time 0 l).

(** ** updateDiagnostics *)

Definition getEmbeddedLanguageType (h : Host) (uri : Uri) : option EmbeddedLanguageType :=
  let fileExtension := extname h (fsPath uri) in
  if String.eqb fileExtension ".py" then Some python
  else if String.eqb fileExtension ".sh" then Some bash
  else None.

(** What [updateDiagnostics] has in hand when it starts on the diagnostics. *)
Record Context : Type := mkContext {
  embeddedLanguageType : EmbeddedLanguageType;
  originalTextDocument : TextDocument;
  embeddedLanguageDocInfos : EmbeddedLanguageDocInfos;
  embeddedLanguageDoc : TextDocument
}.

(** The first part of [updateDiagnostics], up to the opening of the
    embedded-language document; [None] is one of its early returns. *)
Definition updateDiagnosticsSetup (h : Host) (uri : Uri) : Outcome (option Context) :=
  match getEmbeddedLanguageType h uri with
  | None => mret None
  | Some embeddedLanguageType =>
      match getOriginalUri h uri with
      | None => mret None
      | Some originalUri =>
          match find (fun textDocument =>
                        String.eqb (toString (doc_uri textDocument)) (toString originalUri))
                     (textDocuments h) with
          | None => mret None
          | Some originalTextDocument =>
              match getEmbeddedLanguageDocInfos h (doc_uri originalTextDocument)
                      embeddedLanguageType with
              | None => mret None
              | Some embeddedLanguageDocInfos =>
                  embeddedLanguageDoc ←
                    openTextDocument h (fsPath (info_uri embeddedLanguageDocInfos));
                  mret (Some (mkContext embeddedLanguageType originalTextDocument
                                embeddedLanguageDocInfos embeddedLanguageDoc))
              end
          end
      end
  end.

(** [`${diagnostic.source}, ${diagnosticCollection.name}`] *)
Definition adjustedSource (t : EmbeddedLanguageType) (diagnostic : Diagnostic) : string :=
  match source diagnostic with Some src => src | None => "undefined" end
  ++ ", " ++ collectionName t.

(** [{ ...diagnostic, message: ..., range: adjustedRange, source: ... }] *)
Definition adjustedDiagnostic (t : EmbeddedLanguageType) (diagnostic : Diagnostic)
    (adjustedRange : Range) : Diagnostic :=
  {| range := adjustedRange;
     message := fixDiagnosticMessagePythonImport diagnostic;
     severity := severity diagnostic;
     source := Some (adjustedSource t diagnostic);
     code := code diagnostic;
     relatedInformation := relatedInformation diagnostic;
     tags := tags diagnostic;
     hasDiagnosticCode := hasDiagnosticCode diagnostic;
     otherProperties := otherProperties diagnostic |}.

(** The task started for each diagnostic: [Some] is the diagnostic it
    pushes onto [cleanDiagnostics], [None] an early return. *)
Definition updateDiagnosticsTask (h : Host) (ctx : Context)
    (diagnostic : Diagnostic) : Outcome (option Diagnostic) :=
  if negb (checkHasSupportedSource diagnostic) then mret None
  else
    match getOriginalDocRange h (originalTextDocument ctx) (embeddedLanguageDoc ctx)
            (characterIndexes (embeddedLanguageDocInfos ctx)) (range diagnostic) with
    | None => mret None
    | Some adjustedRange =>
        embeddedLanguageTypeOnPosition ←
          getEmbeddedLanguageTypeOnPosition h
            (toString (doc_uri (originalTextDocument ctx))) (end_ adjustedRange);
        if negb (bool_decide (Some (embeddedLanguageType ctx) = embeddedLanguageTypeOnPosition))
        then mret None
        else
          ignored ← checkIsIgnoredDiagnostic h diagnostic (originalTextDocument ctx)
                      adjustedRange;
          if ignored : bool then mret None
          else mret (Some (adjustedDiagnostic (embeddedLanguageType ctx) diagnostic
                             adjustedRange))
    end.

(** What a call leaves behind: how its promise settled, the collections,
    and the calls of [set] it made, oldest first. *)
Record Run : Type := mkRun {
  settled : Outcome unit;
  collections : DiagnosticCollections;
  published : list SetCall
}.

(** [cleanDiagnostics] once every task has completed: the diagnostics the
    tasks pushed, in the order of completion. *)
Definition cleanDiagnosticsOf (time : nat -> nat)
    (results : list (option Diagnostic)) : list Diagnostic :=
  omap id (completionOrder time results).

Definition updateDiagnostics (h : Host) (time : nat -> nat) (uri : Uri)
    (dc : DiagnosticCollections) : Run :=
  match updateDiagnosticsSetup h uri with
  | Rejected => mkRun Rejected dc []
  | Resolved None => mkRun (Resolved tt) dc []
  | Resolved (Some ctx) =>
      let dirtyDiagnostics := getDiagnostics h (info_uri (embeddedLanguageDocInfos ctx)) in
      match promiseAll (map (updateDiagnosticsTask h ctx) dirtyDiagnostics) with
      | Rejected => mkRun Rejected dc []
      | Resolved results =>
          let cleanDiagnostics := cleanDiagnosticsOf time results in
          let originalUri := doc_uri (originalTextDocument ctx) in
          mkRun (Resolved tt)
            (collectionSet (embeddedLanguageType ctx) originalUri cleanDiagnostics dc)
            [mkSetCall (embeddedLanguageType ctx) originalUri cleanDiagnostics]
      end
  end.

(** ** reviewDiagnostics

    One call of [updateDiagnostics] per URI that holds diagnostics.  Each
    call writes to the collections once, at its end, so that the calls take
    effect one after the other, in their order of completion [finish];
    [times uri] orders the tasks within the call for [uri].  A rejected call
    rejects the whole, the others still run to their end. *)

Definition reviewStep (h : Host) (times : Uri -> nat -> nat) (acc : Run) (uri : Uri) : Run :=
  let r := updateDiagnostics h (times uri) uri (collections acc) in
  mkRun (_ ← settled acc; settled r) (collections r) (published acc ++ published r).

Definition reviewDiagnostics (h : Host) (finish : nat -> nat) (times : Uri -> nat -> nat)
    (dc : DiagnosticCollections) : Run :=
  let allDiagnostics := getAllDiagnostics h in
  fold_left (reviewStep h times) (completionOrder finish (map fst allDiagnostics))
    (mkRun (Resolved tt) dc []).

(** ** Notions used in the statements *)

(** What the task of a raw diagnostic contributes to [cleanDiagnostics]. *)
Definition taskYield (h : Host) (ctx : Context) (diagnostic : Diagnostic) : option Diagnostic :=
  match updateDiagnosticsTask h ctx diagnostic with
  | Resolved o => o
  | Rejected => None
  end.

(** The diagnostics [updateDiagnostics] starts from. *)
Definition dirtyDiagnosticsOf (h : Host) (ctx : Context) : list Diagnostic :=
  getDiagnostics h (info_uri (embeddedLanguageDocInfos ctx)).

(** Every character of [s] is of the class [cls]. *)
Fixpoint allIn (cls : ascii -> bool) (s : string) : bool :=
  match s with
  | EmptyString => true
  | String c s' => cls c && allIn cls s'
  end.

(** [s] is empty or starts with a character outside [cls]. *)
Definition stopsAt (cls : ascii -> bool) (s : string) : bool :=
  match s with
  | EmptyString => true
  | String c _ => negb (cls c)
  end.

(** A non-empty run of [\w] characters. *)
Definition isIdentifier (s : string) : bool :=
  match s with
  | EmptyString => false
  | String _ _ => allIn JsString.isWord s
  end.

(** The three conditions under which a task keeps its diagnostic. *)

(** (a) the range of the diagnostic maps to [adjustedRange] in the original
    document *)
Definition mappedTo (h : Host) (ctx : Context) (diagnostic : Diagnostic)
    (adjustedRange : Range) : Prop :=
  getOriginalDocRange h (originalTextDocument ctx) (embeddedLanguageDoc ctx)
    (characterIndexes (embeddedLanguageDocInfos ctx)) (range diagnostic)
  = Some adjustedRange.

(** (b) the language reported at the end of the mapped range is the one
    being processed *)
Definition sameKindAt (h : Host) (ctx : Context) (adjustedRange : Range) : Prop :=
  getEmbeddedLanguageTypeOnPosition h
    (toString (doc_uri (originalTextDocument ctx))) (end_ adjustedRange)
  = Resolved (Some (embeddedLanguageType ctx)).

(** (c) every rule of the chain answered that it does not match *)
Definition noRuleMatches (h : Host) (ctx : Context) (diagnostic : Diagnostic)
    (adjustedRange : Range) : Prop :=
  checkIsAlwaysIgnoredDiagnostic diagnostic = Resolved false /\
  checkIsIgnoredDiagnosticOnAnonymousFunctionFirstLine diagnostic = Resolved false /\
  checkIsIgnoredDiagnosticOnPythonUndefinedVariable h diagnostic
    (originalTextDocument ctx) adjustedRange = Resolved false /\
  checkIsIgnoredShellcheckSc2154 h diagnostic
    (originalTextDocument ctx) adjustedRange = Resolved false.

(** The pairs of source and code that [checkIsAlwaysIgnoredDiagnostic]
    tests, in its order. *)
Definition alwaysIgnoredTable : list (string * string) :=
  [("Flake8", "W391");
   ("Pylint", "C0114:missing-module-docstring");
   ("Pylint", "C0116:missing-function-docstring");
   ("Pylint", "C0305:trailing-newlines");
   ("Pylint", "C0415:import-outside-toplevel");
   ("Flake8", "E501");
   ("Pylint", "W0104:pointless-statement");
   ("Pylint", "W0106:expression-not-assigned");
   ("Flake8", "E203");
   ("Flake8", "E211");
   ("Flake8", "E302");
   ("Flake8", "E303")].

(** The same table with the Pylint codes cut down to their numbers, as a
    reader of the short names would write it. *)
Definition shortCodeTable : list (string * string) :=
  [("Flake8", "W391");
   ("Pylint", "C0114"); ("Pylint", "C0116"); ("Pylint", "C0305"); ("Pylint", "C0415");
   ("Flake8", "E501");
   ("Pylint", "W0104"); ("Pylint", "W0106");
   ("Flake8", "E203"); ("Flake8", "E211");
   ("Flake8", "E302"); ("Flake8", "E303")].

(** The diagnostic has the source and the code of one of the pairs. *)
Definition inTable (table : list (string * string)) (diagnostic : Diagnostic) : bool :=
  existsb (fun entry => hasSourceWithCode diagnostic (fst entry) (snd entry)) table.

(** The source field is absent, or holds none of the supported names. *)
Definition hasNoSupportedSource (diagnostic : Diagnostic) : Prop :=
  forall s, source diagnostic = Some s ->
  forall name, name ∈ ["Flake8"; "Pylance"; "Pylint"; "shellcheck"] ->
  forall a b, s <> a ++ name ++ b.

(** Two calls of [set] that agree on everything but the order of the
    diagnostics. *)
Definition sameCall (c1 c2 : SetCall) : Prop :=
  channel c1 = channel c2 /\ target c1 = target c2 /\ diagnostics c1 ≡ₚ diagnostics c2.

(** ** Concrete hosts and diagnostics, for the examples *)

(** [path.extname] on a POSIX path that does not end with a separator: the
    text from the last dot of the last component, unless that component has
    no dot or only a leading one. *)
Fixpoint extnameFrom (ext : option string) (first : bool) (p : string) : string :=
  match p with
  | EmptyString => match ext with Some e => e | None => "" end
  | String c p' =>
      if Ascii.eqb c "/" then extnameFrom None true p'
      else if Ascii.eqb c "." then extnameFrom (if first then None else Some p) false p'
      else extnameFrom ext false p'
  end.

Definition posixExtname (p : string) : string := extnameFrom None true p.

Definition recipeUri : Uri := mkUri "file:///work/recipe.bb" "/work/recipe.bb".

Definition shellUri : Uri := mkUri "file:///cache/recipe.bb.sh" "/cache/recipe.bb.sh".

Definition pythonUri : Uri := mkUri "file:///cache/recipe.bb.py" "/cache/recipe.bb.py".

Definition recipeDocument (text : string) : TextDocument :=
  mkTextDocument recipeUri (fun _ => text).

Definition embeddedUri (t : EmbeddedLanguageType) : Uri :=
  match t with bash => shellUri | python => pythonUri end.

(** A host with the recipe open, showing [text] under every range, whose
    embedded documents carry the diagnostics [ds]; ranges map to
    themselves, every position is in a region of language [onPosition], and
    the definition service answers [definitions]. *)
Definition recipeHost (text : string) (ds : list Diagnostic)
    (onPosition : option EmbeddedLanguageType) (definitions : list Location) : Host :=
  {| extname := posixExtname;
     getOriginalUri := fun _ => Some recipeUri;
     textDocuments := [recipeDocument text];
     getEmbeddedLanguageDocInfos := fun _ t => Some (mkInfos (embeddedUri t) []);
     openTextDocument := fun p => Resolved (mkTextDocument (mkUri ("file://" ++ p) p) (fun _ => ""));
     getDiagnostics := fun _ => ds;
     getAllDiagnostics :=
       match ds with [] => [] | _ :: _ => [(shellUri, ds); (pythonUri, ds)] end;
     getOriginalDocRange := fun _ _ _ r => Some r;
     getEmbeddedLanguageTypeOnPosition := fun _ _ => Resolved onPosition;
     getDefinition := fun _ _ => Resolved definitions;
     commonDirectoriesVariables := {[ "WORKDIR"; "S"; "B"; "D" ]} |}.

Definition noCollections : DiagnosticCollections := mkCollections ∅ ∅.

Definition someRange : Range := mkRange (mkPosition 4 10) (mkPosition 4 16).

Definition plainDiagnostic (src : option string) (c : DiagnosticCode) (msg : string) : Diagnostic :=
  {| range := someRange; message := msg; severity := SeverityWarning;
     source := src; code := c; relatedInformation := None; tags := None;
     hasDiagnosticCode := None; otherProperties := [] |}.

(** A shellcheck diagnostic that the host [sc2154Host] lets through. *)
Definition sc2154Diagnostic : Diagnostic :=
  plainDiagnostic (Some "shellcheck") (CodePlain (CodeString "SC2154"))
    "FOO is referenced but not assigned.".

Definition sc2154Host : Host := recipeHost "${FOO}" [sc2154Diagnostic] (Some bash) [].

Definition sc2154Context : Context :=
  mkContext bash (recipeDocument "${FOO}") (mkInfos shellUri [])
    (mkTextDocument (mkUri "file:///cache/recipe.bb.sh" "/cache/recipe.bb.sh") (fun _ => "")).

Definition sc2154Call : SetCall :=
  mkSetCall bash recipeUri [adjustedDiagnostic bash sc2154Diagnostic someRange].

(** Pylance diagnostics about the wrapper function [__anonymous]. *)
Definition anonymousDiagnostic (c : DiagnosticCode) (flag : option bool) : Diagnostic :=
  {| range := someRange; message := anonymousNotAccessed; severity := SeverityHint;
     source := Some "Pylance"; code := c; relatedInformation := None;
     tags := Some [Unnecessary]; hasDiagnosticCode := flag; otherProperties := [] |}.

(** A host whose Python document carries the diagnostics [ds]. *)
Definition pythonHost (ds : list Diagnostic) : Host := recipeHost "" ds (Some python) [].

Definition pythonContext : Context :=
  mkContext python (recipeDocument "") (mkInfos pythonUri [])
    (mkTextDocument (mkUri "file:///cache/recipe.bb.py" "/cache/recipe.bb.py") (fun _ => "")).

Definition docstringDiagnostic : Diagnostic :=
  plainDiagnostic (Some "Pylint") (CodePlain (CodeString "C0114")) "Missing module docstring".

Definition docstringDiagnosticLong : Diagnostic :=
  plainDiagnostic (Some "Pylint") (CodePlain (CodeString "C0114:missing-module-docstring"))
    "Missing module docstring".

(** A diagnostic of a tool the file does not know, and one without source. *)
Definition eslintDiagnostic : Diagnostic :=
  plainDiagnostic (Some "eslint") (CodePlain (CodeString "no-undef")) "'x' is not defined".

Definition sourcelessDiagnostic : Diagnostic :=
  plainDiagnostic None CodeUndefined "something is wrong".

(** Examples around shellcheck's SC2154. *)
Definition workdirDiagnostic : Diagnostic :=
  plainDiagnostic (Some "shellcheck") (CodePlain (CodeString "SC2154"))
    "WORKDIR is referenced but not assigned.".

Definition f811Diagnostic (msg : string) : Diagnostic :=
  plainDiagnostic (Some "Flake8") (CodePlain (CodeString "F811")) msg.

(** The recipe shows [${FOO}], the message names [WORKDIR]. *)
Definition workdirHost : Host := recipeHost "${FOO}" [workdirDiagnostic] (Some bash) [].

(** The mapped position lies in a Python region of the recipe. *)
Definition pythonRegionHost : Host := recipeHost "${FOO}" [sc2154Diagnostic] (Some python) [].

(** ** Further notions and hosts *)

(** [diagnosticCollections[embeddedLanguageType]] *)
Definition collectionOf (t : EmbeddedLanguageType) (dc : DiagnosticCollections) :
    gmap string (list Diagnostic) :=
  match t with
  | bash => bash_collection dc
  | python => python_collection dc
  end.

(** The other of the two languages. *)
Definition otherLanguage (t : EmbeddedLanguageType) : EmbeddedLanguageType :=
  match t with
  | bash => python
  | python => bash
  end.

(** The same diagnostic with another [code]. *)
Definition withCode (diagnostic : Diagnostic) (c : DiagnosticCode) : Diagnostic :=
  {| range := range diagnostic;
     message := message diagnostic;
     severity := severity diagnostic;
     source := source diagnostic;
     code := c;
     relatedInformation := relatedInformation diagnostic;
     tags := tags diagnostic;
     hasDiagnosticCode := hasDiagnosticCode diagnostic;
     otherProperties := otherProperties diagnostic |}.

(** A character outside [\w]. *)
Definition notWord (c : ascii) : bool := negb (JsString.isWord c).

(** The host [h] with other open documents, or with other services. *)
Definition withTextDocuments (h : Host) (docs : list TextDocument) : Host :=
  {| extname := extname h;
     getOriginalUri := getOriginalUri h;
     textDocuments := docs;
     getEmbeddedLanguageDocInfos := getEmbeddedLanguageDocInfos h;
     openTextDocument := openTextDocument h;
     getDiagnostics := getDiagnostics h;
     getAllDiagnostics := getAllDiagnostics h;
     getOriginalDocRange := getOriginalDocRange h;
     getEmbeddedLanguageTypeOnPosition := getEmbeddedLanguageTypeOnPosition h;
     getDefinition := getDefinition h;
     commonDirectoriesVariables := commonDirectoriesVariables h |}.

Definition withServices (h : Host)
    (onPosition : string -> Position -> Outcome (option EmbeddedLanguageType))
    (definitions : TextDocument -> Position -> Outcome (list Location)) : Host :=
  {| extname := extname h;
     getOriginalUri := getOriginalUri h;
     textDocuments := textDocuments h;
     getEmbeddedLanguageDocInfos := getEmbeddedLanguageDocInfos h;
     openTextDocument := openTextDocument h;
     getDiagnostics := getDiagnostics h;
     getAllDiagnostics := getAllDiagnostics h;
     getOriginalDocRange := getOriginalDocRange h;
     getEmbeddedLanguageTypeOnPosition := onPosition;
     getDefinition := definitions;
     commonDirectoriesVariables := commonDirectoriesVariables h |}.

(** The recipe is closed. *)
Definition closedHost : Host := withTextDocuments sc2154Host [].

(** The language server does not answer the question about the language. *)
Definition silentHost : Host :=
  withServices sc2154Host (fun _ _ => Rejected) (fun _ _ => Resolved []).

Definition undefinedNameDiagnostic : Diagnostic :=
  plainDiagnostic (Some "Flake8") (CodePlain (CodeString "F821")) "undefined name 'd'".

(** The host [h] with another embedded-document manager. *)
Definition withEmbeddedLanguageDocInfos (h : Host)
    (infos : Uri -> EmbeddedLanguageType -> option EmbeddedLanguageDocInfos) : Host :=
  {| extname := extname h;
     getOriginalUri := getOriginalUri h;
     textDocuments := textDocuments h;
     getEmbeddedLanguageDocInfos := infos;
     openTextDocument := openTextDocument h;
     getDiagnostics := getDiagnostics h;
     getAllDiagnostics := getAllDiagnostics h;
     getOriginalDocRange := getOriginalDocRange h;
     getEmbeddedLanguageTypeOnPosition := getEmbeddedLanguageTypeOnPosition h;
     getDefinition := getDefinition h;
     commonDirectoriesVariables := commonDirectoriesVariables h |}.

(** The manager has an embedded Bash document for the recipe, and no
    embedded Python document. *)
Definition bashOnlyHost : Host :=
  withEmbeddedLanguageDocInfos sc2154Host
    (fun _ t => match t with bash => Some (mkInfos shellUri []) | python => None end).

(** A second shellcheck diagnostic, further down in the embedded document. *)
Definition otherRange : Range := mkRange (mkPosition 9 0) (mkPosition 9 6).

Definition secondDiagnostic : Diagnostic :=
  {| range := otherRange; message := "BAR is referenced but not assigned.";
     severity := SeverityWarning; source := Some "shellcheck";
     code := CodePlain (CodeString "SC2154"); relatedInformation := None; tags := None;
     hasDiagnosticCode := None; otherProperties := [] |}.

(** The language server answers the question about the language on line 4
    and fails on every other line. *)
Definition flakyHost : Host :=
  withServices (recipeHost "${FOO}" [sc2154Diagnostic; secondDiagnostic] (Some bash) [])
    (fun _ position =>
       if (line position =? 4)%nat then Resolved (Some bash) else Rejected)
    (fun _ _ => Resolved []).

(** * Properties *)

(** ** Strings *)

Lemma append_nil_r (s : string) : s ++ "" = s.
Proof. induction s as [|c s IH]; simpl; [reflexivity | now rewrite IH]. Qed.

Lemma append_assoc (a b c : string) : (a ++ b) ++ c = a ++ (b ++ c).
Proof. induction a as [|x a IH]; simpl; [reflexivity | now rewrite IH]. Qed.

Lemma length_append (a b : string) :
  String.length (a ++ b) = (String.length a + String.length b)%nat.
Proof. induction a as [|x a IH]; simpl; [reflexivity | now rewrite IH]. Qed.

Lemma dropPrefix_spec (p s s' : string) :
  JsString.dropPrefix p s = Some s' <-> s = p ++ s'.
Proof.
  revert s. induction p as [|a p IH]; intros s; simpl.
  - split; [now intros [= ->] | now intros ->].
  - destruct s as [|b s]; [split; discriminate |].
    destruct (Ascii.eqb_spec a b) as [->|Hne].
    + rewrite IH. split; [now intros -> | now intros [= ->]].
    + split; [discriminate | intros [= E _]; now destruct Hne].
Qed.

Lemma startsWith_spec (s p : string) :
  JsString.startsWith s p = true <-> exists b, s = p ++ b.
Proof.
  unfold JsString.startsWith. split.
  - destruct (JsString.dropPrefix p s) as [b|] eqn:E; [|discriminate].
    intros _. exists b. now apply dropPrefix_spec.
  - intros [b Hb]. apply dropPrefix_spec in Hb. now rewrite Hb.
Qed.

(** [includes] is the substring test. *)
Lemma includes_spec (s t : string) :
  JsString.includes s t = true <-> exists a b, s = a ++ t ++ b.
Proof.
  induction s as [|c s IH].
  - cbn [JsString.includes]. rewrite orb_false_r, startsWith_spec. split.
    + intros [b Hb]. now exists "", b.
    + intros [a [b Hab]]. destruct a; simpl in Hab; [now exists b | discriminate].
  - cbn [JsString.includes]. rewrite orb_true_iff, startsWith_spec, IH. split.
    + intros [[b Hb] | [a [b Hab]]].
      * now exists "", b.
      * exists (String c a), b. simpl. now rewrite Hab.
    + intros [a [b Hab]]. destruct a as [|x a]; simpl in Hab.
      * left. now exists b.
      * right. inversion Hab. now exists a, b.
Qed.

Lemma substring_0_append (a b : string) :
  String.substring 0 (String.length a) (a ++ b) = a.
Proof. induction a as [|x a IH]; simpl; [now destruct b | now rewrite IH]. Qed.

Lemma substring_skip (a b : string) (n : nat) :
  String.substring (String.length a) n (a ++ b) = String.substring 0 n b.
Proof. induction a as [|x a IH]; simpl; [reflexivity | exact IH]. Qed.

Lemma slice_middle (a v b : string) :
  JsString.slice (a ++ v ++ b) (String.length a) (String.length a + String.length v) = v.
Proof.
  unfold JsString.slice.
  replace (String.length a + String.length v - String.length a)%nat
    with (String.length v) by lia.
  rewrite substring_skip. apply substring_0_append.
Qed.

(** ** The model at work *)

Example includes_substring : JsString.includes "Pylance (basic)" "Pylance" = true.
Proof. reflexivity. Qed.

Example includes_case_sensitive : JsString.includes "pylance" "Pylance" = false.
Proof. reflexivity. Qed.

Example exec_word_in_expansion :
  RegExp.exec wordRegex "${FOO}" = Some (RegExp.mkMatch 2 5 []).
Proof. reflexivity. Qed.

Example exec_word_backtracks :
  RegExp.exec (RegExp.Seq (RegExp.Plus JsString.isWord) (RegExp.Lit "1")) "ab11c"
  = Some (RegExp.mkMatch 0 4 []).
Proof. reflexivity. Qed.

Example exec_reimport :
  fixDiagnosticMessagePythonImport
    (plainDiagnostic (Some "Pylint") (CodePlain (CodeString "W0404:reimported"))
       "Reimport 'os' (imported line 2)")
  = "Reimport 'os' (imported by BitBake)".
Proof. reflexivity. Qed.

Example posixExtname_examples :
  posixExtname "/cache/recipe.bb.sh" = ".sh" /\
  posixExtname "/cache.d/recipe" = "" /\
  posixExtname "/cache/.py" = "".
Proof. repeat split. Qed.

Example completionOrder_example :
  completionOrder (fun i => match i with 0 => 5 | 1 => 2 | 2 => 5 | _ => 0 end)
    ["a"; "b"; "c"; "d"]
  = ["d"; "b"; "a"; "c"].
Proof. reflexivity. Qed.

(** ** Completion order and [Promise.all] *)

Lemma insertByTime_perm {A : Type} (t : nat) (a : A) (l : list (nat * A)) :
  map snd (insertByTime t a l) ≡ₚ a :: map snd l.
Proof.
  induction l as [|[t' a'] l IH]; simpl; [reflexivity |].
  destruct (t <=? t')%nat; simpl; [reflexivity |].
  rewrite IH. apply Permutation_swap.
Qed.

Lemma timedFrom_perm {A : Type} (time : nat -> nat) (i : nat) (l : list A) :
  map snd (timedFrom time i l) ≡ₚ l.
Proof.
  revert i. induction l as [|a l IH]; intros i; simpl; [reflexivity |].
  rewrite insertByTime_perm. now rewrite IH.
Qed.

(** Whatever the completion times, the same tasks complete. *)
Lemma completionOrder_perm {A : Type} (time : nat -> nat) (l : list A) :
  completionOrder time l ≡ₚ l.
Proof. apply timedFrom_perm. Qed.

Lemma omap_perm {A B : Type} (f : A -> option B) (l1 l2 : list A) :
  l1 ≡ₚ l2 -> omap f l1 ≡ₚ omap f l2.
Proof.
  induction 1 as [|x l1 l2 _ IH|x y l|l1 l2 l3 _ IH1 _ IH2]; simpl.
  - reflexivity.
  - destruct (f x); [now apply Permutation_cons | exact IH].
  - destruct (f x), (f y); try reflexivity. apply Permutation_swap.
  - now transitivity (omap f l2).
Qed.

Lemma omap_id_fmap {A B : Type} (f : A -> option B) (l : list A) :
  omap id (map f l) = omap f l.
Proof.
  induction l as [|a l IH]; simpl; [reflexivity |].
  destruct (f a); [f_equal |]; exact IH.
Qed.

(** When [Promise.all] resolves, every task has resolved, and the results
    are theirs. *)
Lemma promiseAll_map {A B : Type} (f : A -> Outcome B) (l : list A) (rs : list B) :
  promiseAll (map f l) = Resolved rs ->
  Forall2 (fun a r => f a = Resolved r) l rs.
Proof.
  revert rs. induction l as [|a l IH]; intros rs; simpl.
  - intros [= <-]. constructor.
  - destruct (f a) as [b|] eqn:Ea; simpl; [|discriminate].
    destruct (promiseAll (map f l)) as [bs|] eqn:El; simpl; [|discriminate].
    intros [= <-]. constructor; [assumption | now apply IH].
Qed.

Lemma promiseAll_yield (h : Host) (ctx : Context) (l : list Diagnostic)
    (rs : list (option Diagnostic)) :
  promiseAll (map (updateDiagnosticsTask h ctx) l) = Resolved rs ->
  rs = map (taskYield h ctx) l.
Proof.
  intros H. apply promiseAll_map in H.
  induction H as [|a r l rs Har _ IH]; simpl; [reflexivity |].
  unfold taskYield at 1. now rewrite Har, IH.
Qed.

Lemma cleanDiagnosticsOf_perm (time : nat -> nat) (h : Host) (ctx : Context)
    (l : list Diagnostic) :
  cleanDiagnosticsOf time (map (taskYield h ctx) l) ≡ₚ omap (taskYield h ctx) l.
Proof.
  unfold cleanDiagnosticsOf. rewrite <- (omap_id_fmap (taskYield h ctx) l).
  apply omap_perm, completionOrder_perm.
Qed.

(** ** What one call publishes *)

(** A call of [updateDiagnostics] makes at most one call of [set]; when it
    does, the setup succeeded, every task resolved, and the diagnostics set
    are, up to their order, those the tasks yielded. *)
Lemma updateDiagnostics_published (h : Host) (time : nat -> nat) (uri : Uri)
    (dc : DiagnosticCollections) (call : SetCall) :
  call ∈ published (updateDiagnostics h time uri dc) ->
  exists ctx,
    updateDiagnosticsSetup h uri = Resolved (Some ctx) /\
    published (updateDiagnostics h time uri dc) = [call] /\
    channel call = embeddedLanguageType ctx /\
    target call = doc_uri (originalTextDocument ctx) /\
    diagnostics call ≡ₚ omap (taskYield h ctx) (dirtyDiagnosticsOf h ctx) /\
    Forall (fun d => exists o, updateDiagnosticsTask h ctx d = Resolved o)
           (dirtyDiagnosticsOf h ctx).
Proof.
  unfold updateDiagnostics.
  destruct (updateDiagnosticsSetup h uri) as [[ctx|]|] eqn:Es; simpl;
    try (intros H; now apply elem_of_nil in H).
  destruct (promiseAll _) as [rs|] eqn:Ep; simpl;
    try (intros H; now apply elem_of_nil in H).
  intros H. apply list_elem_of_singleton in H. subst call. simpl.
  exists ctx. pose proof (promiseAll_yield _ _ _ _ Ep) as ->.
  repeat split; try reflexivity.
  - apply cleanDiagnosticsOf_perm.
  - apply promiseAll_map in Ep. unfold dirtyDiagnosticsOf.
    induction Ep as [|a r l rs Har _ IH]; constructor; eauto.
Qed.

Lemma elem_of_omap_yield (h : Host) (ctx : Context) (l : list Diagnostic)
    (d' : Diagnostic) :
  d' ∈ omap (taskYield h ctx) l <->
  exists d, d ∈ l /\ updateDiagnosticsTask h ctx d = Resolved (Some d').
Proof.
  rewrite list_elem_of_omap. unfold taskYield. split.
  - intros [d [Hd Hy]]. exists d. split; [assumption |].
    destruct (updateDiagnosticsTask h ctx d) as [o|]; [now subst o | discriminate].
  - intros [d [Hd Hy]]. exists d. now rewrite Hy.
Qed.

(** Diagnostics whose task yields nothing can be left out beforehand. *)
Lemma omap_yield_filter (h : Host) (ctx : Context) (keep : Diagnostic -> bool)
    (l : list Diagnostic) :
  (forall d, keep d = false -> taskYield h ctx d = None) ->
  omap (taskYield h ctx) l = omap (taskYield h ctx) (List.filter keep l).
Proof.
  intros Hk. induction l as [|d l IH]; simpl; [reflexivity |].
  destruct (keep d) eqn:Ek; simpl.
  - destruct (taskYield h ctx d); [f_equal |]; exact IH.
  - rewrite (Hk d Ek). exact IH.
Qed.

(** ** The task of one diagnostic *)

Lemma checkIsAlwaysIgnoredDiagnostic_resolves (d : Diagnostic) :
  exists b, checkIsAlwaysIgnoredDiagnostic d = Resolved b.
Proof. unfold checkIsAlwaysIgnoredDiagnostic. destruct (_ || _); eauto. Qed.

Lemma checkIsIgnoredDiagnosticOnAnonymousFunctionFirstLine_resolves (d : Diagnostic) :
  exists b, checkIsIgnoredDiagnosticOnAnonymousFunctionFirstLine d = Resolved b.
Proof.
  unfold checkIsIgnoredDiagnosticOnAnonymousFunctionFirstLine.
  destruct (_ && _); eauto.
Qed.

(** The chain answers [false] exactly when each of its rules does. *)
Lemma checkIsIgnoredDiagnostic_false (h : Host) (ctx : Context) (d : Diagnostic) (r : Range) :
  checkIsIgnoredDiagnostic h d (originalTextDocument ctx) r = Resolved false <->
  noRuleMatches h ctx d r.
Proof.
  unfold checkIsIgnoredDiagnostic, noRuleMatches.
  destruct (checkIsAlwaysIgnoredDiagnostic d) as [[|]|]; simpl;
    try (split; [discriminate | intros [? _]; discriminate]).
  destruct (checkIsIgnoredDiagnosticOnAnonymousFunctionFirstLine d) as [[|]|]; simpl;
    try (split; [discriminate | intros (_ & ? & _); discriminate]).
  destruct (checkIsIgnoredDiagnosticOnPythonUndefinedVariable _ _ _ _) as [[|]|]; simpl;
    try (split; [discriminate | intros (_ & _ & ? & _); discriminate]).
  destruct (checkIsIgnoredShellcheckSc2154 _ _ _ _) as [[|]|]; simpl;
    try (split; [discriminate | intros (_ & _ & _ & ?); discriminate]).
  split; [now repeat split | reflexivity].
Qed.

(** A task yields a diagnostic exactly when the source is a supported one
    and the three conditions hold; it then yields the adjusted diagnostic. *)
Lemma updateDiagnosticsTask_Some (h : Host) (ctx : Context) (d d' : Diagnostic) :
  updateDiagnosticsTask h ctx d = Resolved (Some d') <->
  checkHasSupportedSource d = true /\
  exists r, mappedTo h ctx d r /\ sameKindAt h ctx r /\ noRuleMatches h ctx d r /\
            d' = adjustedDiagnostic (embeddedLanguageType ctx) d r.
Proof.
  unfold updateDiagnosticsTask, mappedTo, sameKindAt. split.
  - destruct (checkHasSupportedSource d); simpl; [| discriminate].
    destruct (getOriginalDocRange _ _ _ _ _) as [r|]; simpl; [| discriminate].
    destruct (getEmbeddedLanguageTypeOnPosition _ _ _) as [k|] eqn:Ek; simpl;
      [| discriminate].
    destruct (bool_decide_reflect (Some (embeddedLanguageType ctx) = k)) as [Hk|Hk];
      simpl; [| discriminate].
    destruct (checkIsIgnoredDiagnostic h d (originalTextDocument ctx) r)
      as [[|]|] eqn:Ec; simpl; try discriminate.
    intros [= <-]. split; [reflexivity |]. exists r. subst k.
    apply checkIsIgnoredDiagnostic_false in Ec.
    split; [reflexivity |]. split; [exact Ek |]. split; [exact Ec | reflexivity].
  - intros (Hs & r & Hm & Hk & Hn & ->).
    apply checkIsIgnoredDiagnostic_false in Hn.
    rewrite Hs, Hm. simpl. rewrite Hk. simpl.
    rewrite bool_decide_true by reflexivity. simpl. now rewrite Hn.
Qed.

(** The language of the context is the one the file extension gives. *)
Lemma updateDiagnosticsSetup_kind (h : Host) (uri : Uri) (ctx : Context) :
  updateDiagnosticsSetup h uri = Resolved (Some ctx) ->
  getEmbeddedLanguageType h uri = Some (embeddedLanguageType ctx).
Proof.
  unfold updateDiagnosticsSetup.
  destruct (getEmbeddedLanguageType h uri) as [t|]; [| discriminate].
  destruct (getOriginalUri h uri) as [originalUri|]; [| discriminate].
  destruct (find _ _) as [doc|]; [| discriminate].
  destruct (getEmbeddedLanguageDocInfos h _ t) as [infos|]; [| discriminate].
  destruct (openTextDocument h _) as [edoc|]; simpl; [| discriminate].
  now intros [= <-].
Qed.

(** ** C1: what is published passed the three conditions *)

(** C1.  Whenever [updateDiagnostics] publishes, the diagnostics it sets in
    the collection of the resolved language are, up to their order, those
    that the tasks of the raw diagnostics yielded.  Each of them is the
    adjusted form of a raw diagnostic (a) whose range was mapped to the
    original document, (b) for which the language reported at the mapped
    position is the language being processed, and (c) for which every rule
    of the ignore chain answered no-match.  The task of a raw diagnostic
    that fails one of the three conditions yields nothing to publish. *)
Theorem published_only_if_mapped_same_kind_not_ignored
    (h : Host) (time : nat -> nat) (uri : Uri) (dc : DiagnosticCollections)
    (call : SetCall) :
  call ∈ published (updateDiagnostics h time uri dc) ->
  exists ctx,
    updateDiagnosticsSetup h uri = Resolved (Some ctx) /\
    getEmbeddedLanguageType h uri = Some (channel call) /\
    channel call = embeddedLanguageType ctx /\
    diagnostics call ≡ₚ omap (taskYield h ctx) (dirtyDiagnosticsOf h ctx) /\
    (forall d', d' ∈ diagnostics call ->
       exists d r,
         d ∈ dirtyDiagnosticsOf h ctx /\
         mappedTo h ctx d r /\ sameKindAt h ctx r /\ noRuleMatches h ctx d r /\
         d' = adjustedDiagnostic (embeddedLanguageType ctx) d r) /\
    (forall d,
       (forall r, ~ (mappedTo h ctx d r /\ sameKindAt h ctx r /\ noRuleMatches h ctx d r)) ->
       taskYield h ctx d = None).
Proof.
  intros Hcall.
  destruct (updateDiagnostics_published _ _ _ _ _ Hcall)
    as (ctx & Hsetup & _ & Hchannel & _ & Hperm & _).
  exists ctx. repeat split; try assumption.
  - rewrite Hchannel. now apply updateDiagnosticsSetup_kind.
  - intros d' Hd'. rewrite Hperm in Hd'.
    apply elem_of_omap_yield in Hd' as (d & Hd & Hy).
    apply updateDiagnosticsTask_Some in Hy as (_ & r & Hm & Hk & Hn & ->).
    now exists d, r.
  - intros d Hfail. unfold taskYield.
    destruct (updateDiagnosticsTask h ctx d) as [[d'|]|] eqn:Ey; try reflexivity.
    apply updateDiagnosticsTask_Some in Ey as (_ & r & Hm & Hk & Hn & _).
    destruct (Hfail r). auto.
Qed.

Lemma published_only_if_mapped_same_kind_not_ignored_witness :
  sc2154Call ∈ published (updateDiagnostics sc2154Host (fun _ => 0) shellUri noCollections) /\
  exists d r,
    d ∈ dirtyDiagnosticsOf sc2154Host sc2154Context /\
    mappedTo sc2154Host sc2154Context d r /\
    sameKindAt sc2154Host sc2154Context r /\
    noRuleMatches sc2154Host sc2154Context d r /\
    adjustedDiagnostic bash sc2154Diagnostic someRange = adjustedDiagnostic bash d r.
Proof.
  assert (Hcall : sc2154Call ∈
            published (updateDiagnostics sc2154Host (fun _ => 0) shellUri noCollections))
    by (vm_compute; left).
  split; [exact Hcall |].
  destruct (published_only_if_mapped_same_kind_not_ignored _ _ _ _ _ Hcall)
    as (ctx & Hsetup & _ & _ & _ & Hin & _).
  injection Hsetup as <-.
  apply (Hin (adjustedDiagnostic bash sc2154Diagnostic someRange)).
  left.
Defined.

(** ** Diagnostics that a task never yields *)

Lemma sourceIncludes_spec (d : Diagnostic) (name : string) :
  sourceIncludes d name = true <->
  exists s a b, source d = Some s /\ s = a ++ name ++ b.
Proof.
  unfold sourceIncludes. destruct (source d) as [s|].
  - rewrite includes_spec. split.
    + intros (a & b & ->). now exists (a ++ name ++ b), a, b.
    + intros (s' & a & b & [= <-] & ->). now exists a, b.
  - split; [discriminate | intros (s & _ & _ & [=] & _)].
Qed.

(** A task yields nothing when no range passes the three conditions. *)
Lemma taskYield_None (h : Host) (ctx : Context) (d : Diagnostic) :
  (checkHasSupportedSource d = false \/
   forall r, ~ (mappedTo h ctx d r /\ sameKindAt h ctx r /\ noRuleMatches h ctx d r)) ->
  taskYield h ctx d = None.
Proof.
  intros Hfail. unfold taskYield.
  destruct (updateDiagnosticsTask h ctx d) as [[d'|]|] eqn:Ey; try reflexivity.
  apply updateDiagnosticsTask_Some in Ey as (Hs & r & Hm & Hk & Hn & _).
  destruct Hfail as [Hf|Hf]; [congruence | destruct (Hf r); auto].
Qed.

(** As soon as one of the two rules that ask nothing of the host matches,
    the chain answers [true]; the task then yields nothing. *)
Lemma checkIsIgnoredDiagnostic_early (h : Host) (d : Diagnostic)
    (doc : TextDocument) (r : Range) :
  checkIsAlwaysIgnoredDiagnostic d = Resolved true \/
  checkIsIgnoredDiagnosticOnAnonymousFunctionFirstLine d = Resolved true ->
  checkIsIgnoredDiagnostic h d doc r = Resolved true.
Proof.
  unfold checkIsIgnoredDiagnostic. intros [H|H].
  - now rewrite H.
  - destruct (checkIsAlwaysIgnoredDiagnostic_resolves d) as [[|] ->]; simpl;
      [reflexivity | now rewrite H].
Qed.

Lemma taskYield_ignored (h : Host) (ctx : Context) (d : Diagnostic) :
  (forall r, checkIsIgnoredDiagnostic h d (originalTextDocument ctx) r <> Resolved false) ->
  taskYield h ctx d = None.
Proof.
  intros H. apply taskYield_None. right. intros r (_ & _ & Hn).
  apply checkIsIgnoredDiagnostic_false in Hn. now apply (H r).
Qed.

(** ** C2: the rule on the first line of anonymous functions *)

Lemma anonymous_rule_iff (d : Diagnostic) :
  checkIsIgnoredDiagnosticOnAnonymousFunctionFirstLine d = Resolved true <->
  sourceIncludes d "Pylance" = true /\
  hasDiagnosticCode d = Some false /\
  message d = anonymousNotAccessed.
Proof.
  unfold checkIsIgnoredDiagnosticOnAnonymousFunctionFirstLine.
  destruct (sourceIncludes d "Pylance"); simpl;
    [| split; [discriminate | intros [? _]; discriminate]].
  destruct (hasDiagnosticCode d) as [[|]|]; simpl;
    try (split; [discriminate | intros (_ & ? & _); discriminate]).
  destruct (String.eqb_spec (message d) anonymousNotAccessed) as [E|E].
  - now split.
  - split; [discriminate | intros (_ & _ & ?); contradiction].
Qed.

(** C2, as the code has it.  The rule does not read the [code] field: it
    reads the property [hasDiagnosticCode].  For every diagnostic whose
    source contains "Pylance" and whose message is exactly
    ["__anonymous" is not accessed]: when [hasDiagnosticCode] is [false] the
    rule matches, the chain answers ignore and the task yields nothing to
    publish, whatever the [code] field holds; when [hasDiagnosticCode] is
    absent or [true] the rule does not match, again whatever the [code]
    field holds. *)
Theorem anonymous_rule_reads_hasDiagnosticCode
    (h : Host) (ctx : Context) (d : Diagnostic) :
  sourceIncludes d "Pylance" = true ->
  message d = anonymousNotAccessed ->
  (hasDiagnosticCode d = Some false ->
     checkIsIgnoredDiagnosticOnAnonymousFunctionFirstLine d = Resolved true /\
     (forall r, checkIsIgnoredDiagnostic h d (originalTextDocument ctx) r = Resolved true) /\
     taskYield h ctx d = None) /\
  (hasDiagnosticCode d <> Some false ->
     checkIsIgnoredDiagnosticOnAnonymousFunctionFirstLine d = Resolved false).
Proof.
  intros Hsrc Hmsg. split.
  - intros Hflag.
    assert (Hrule : checkIsIgnoredDiagnosticOnAnonymousFunctionFirstLine d = Resolved true)
      by now apply anonymous_rule_iff.
    assert (Hchain : forall r,
              checkIsIgnoredDiagnostic h d (originalTextDocument ctx) r = Resolved true)
      by (intros r; apply checkIsIgnoredDiagnostic_early; now right).
    repeat split; try assumption.
    apply taskYield_ignored. intros r. now rewrite Hchain.
  - intros Hflag.
    destruct (checkIsIgnoredDiagnosticOnAnonymousFunctionFirstLine_resolves d) as [[|] Hb];
      [| exact Hb].
    apply anonymous_rule_iff in Hb as (_ & Hf & _). contradiction.
Qed.

Lemma anonymous_rule_reads_hasDiagnosticCode_witness :
  checkIsIgnoredDiagnosticOnAnonymousFunctionFirstLine
    (anonymousDiagnostic CodeUndefined (Some false)) = Resolved true /\
  taskYield (pythonHost [anonymousDiagnostic CodeUndefined (Some false)]) pythonContext
    (anonymousDiagnostic CodeUndefined (Some false)) = None.
Proof.
  destruct (anonymous_rule_reads_hasDiagnosticCode
              (pythonHost [anonymousDiagnostic CodeUndefined (Some false)]) pythonContext
              (anonymousDiagnostic CodeUndefined (Some false)) eq_refl eq_refl)
    as [Hfalse _].
  destruct (Hfalse eq_refl) as (Hrule & _ & Hyield).
  split; [exact Hrule | exact Hyield].
Defined.

(** C2 fails as it is stated, on both halves.  A Pylance diagnostic with
    the message and no [code], but without the property
    [hasDiagnosticCode], is not matched by the rule, and is published.  A
    Pylance diagnostic with the message and a [code], whose property
    [hasDiagnosticCode] is [false], is matched by the rule. *)
Lemma anonymous_rule_code_field_counterexample :
  (sourceIncludes (anonymousDiagnostic CodeUndefined None) "Pylance" = true /\
   code (anonymousDiagnostic CodeUndefined None) = CodeUndefined /\
   message (anonymousDiagnostic CodeUndefined None) = anonymousNotAccessed /\
   checkIsIgnoredDiagnosticOnAnonymousFunctionFirstLine
     (anonymousDiagnostic CodeUndefined None) = Resolved false /\
   published (updateDiagnostics (pythonHost [anonymousDiagnostic CodeUndefined None])
                (fun _ => 0) pythonUri noCollections)
   = [mkSetCall python recipeUri
        [adjustedDiagnostic python (anonymousDiagnostic CodeUndefined None) someRange]]) /\
  (sourceIncludes
     (anonymousDiagnostic (CodePlain (CodeString "reportUnusedVariable")) (Some false))
     "Pylance" = true /\
   code (anonymousDiagnostic (CodePlain (CodeString "reportUnusedVariable")) (Some false))
     <> CodeUndefined /\
   message (anonymousDiagnostic (CodePlain (CodeString "reportUnusedVariable")) (Some false))
     = anonymousNotAccessed /\
   checkIsIgnoredDiagnosticOnAnonymousFunctionFirstLine
     (anonymousDiagnostic (CodePlain (CodeString "reportUnusedVariable")) (Some false))
   = Resolved true).
Proof.
  split.
  - repeat split; try reflexivity.
  - repeat split; try reflexivity. discriminate.
Qed.

(** ** C3: the diagnostics that are always ignored *)

Lemma checkIsAlwaysIgnoredDiagnostic_table (d : Diagnostic) :
  checkIsAlwaysIgnoredDiagnostic d = Resolved (inTable alwaysIgnoredTable d).
Proof.
  unfold checkIsAlwaysIgnoredDiagnostic, inTable, alwaysIgnoredTable.
  cbn [existsb fst snd]. rewrite orb_false_r, !orb_assoc.
  now destruct (_ || _).
Qed.

(** What [hasSourceWithCode] tests: the source contains the name, and the
    code, plain or structured, is the given string. *)
Lemma hasSourceWithCode_spec (d : Diagnostic) (src c : string) :
  hasSourceWithCode d src c = true <->
  sourceIncludes d src = true /\
  (code d = CodePlain (CodeString c) \/ exists target, code d = CodeObject (CodeString c) target).
Proof.
  unfold hasSourceWithCode. destruct (sourceIncludes d src); simpl;
    [| split; [discriminate | intros [? _]; discriminate]].
  destruct (code d) as [|[s|n]|[s|n] target]; simpl.
  - split; [discriminate | intros [_ [?|[? ?]]]; discriminate].
  - destruct (String.eqb_spec s c) as [->|Hne].
    + split; auto.
    + split; [discriminate | intros [_ [[= ?]|[? [=]]]]; contradiction].
  - split; [discriminate | intros [_ [?|[? ?]]]; discriminate].
  - destruct (String.eqb_spec s c) as [->|Hne].
    + split; eauto.
    + split; [discriminate | intros [_ [[=]|[? [= ? ?]]]]; contradiction].
  - split; [discriminate | intros [_ [?|[? ?]]]; discriminate].
Qed.

(** C3, as the code has it.  The table of the code holds the Pylint codes
    in their long form, "C0114:missing-module-docstring" and the like.
    Whenever [updateDiagnostics] publishes, what it sets is, up to order,
    what the tasks of the raw diagnostics outside the table yielded; for
    every diagnostic in the table, whatever its message and its range, the
    first rule matches, the chain answers ignore for every mapped range, and
    the task yields nothing. *)
Theorem always_ignored_never_published
    (h : Host) (time : nat -> nat) (uri : Uri) (dc : DiagnosticCollections)
    (call : SetCall) :
  call ∈ published (updateDiagnostics h time uri dc) ->
  exists ctx,
    updateDiagnosticsSetup h uri = Resolved (Some ctx) /\
    diagnostics call ≡ₚ
      omap (taskYield h ctx)
        (List.filter (fun d => negb (inTable alwaysIgnoredTable d)) (dirtyDiagnosticsOf h ctx)) /\
    (forall d, inTable alwaysIgnoredTable d = true ->
       checkIsAlwaysIgnoredDiagnostic d = Resolved true /\
       (forall r, checkIsIgnoredDiagnostic h d (originalTextDocument ctx) r = Resolved true) /\
       taskYield h ctx d = None).
Proof.
  intros Hcall.
  destruct (updateDiagnostics_published _ _ _ _ _ Hcall)
    as (ctx & Hsetup & _ & _ & _ & Hperm & _).
  assert (Hin : forall d, inTable alwaysIgnoredTable d = true ->
            checkIsAlwaysIgnoredDiagnostic d = Resolved true /\
            (forall r, checkIsIgnoredDiagnostic h d (originalTextDocument ctx) r
                       = Resolved true) /\
            taskYield h ctx d = None).
  { intros d Hd.
    assert (Hrule : checkIsAlwaysIgnoredDiagnostic d = Resolved true)
      by now rewrite checkIsAlwaysIgnoredDiagnostic_table, Hd.
    assert (Hchain : forall r,
              checkIsIgnoredDiagnostic h d (originalTextDocument ctx) r = Resolved true)
      by (intros r; apply checkIsIgnoredDiagnostic_early; now left).
    repeat split; try assumption.
    apply taskYield_ignored. intros r. now rewrite Hchain. }
  exists ctx. repeat split; try assumption; try (now apply Hin).
  rewrite Hperm.
  rewrite (omap_yield_filter h ctx (fun d => negb (inTable alwaysIgnoredTable d))).
  - reflexivity.
  - intros d Hd. apply negb_false_iff in Hd. now apply Hin.
Qed.

Lemma always_ignored_never_published_witness :
  inTable alwaysIgnoredTable docstringDiagnosticLong = true /\
  published (updateDiagnostics (pythonHost [docstringDiagnosticLong]) (fun _ => 0)
               pythonUri noCollections)
  = [mkSetCall python recipeUri []] /\
  taskYield (pythonHost [docstringDiagnosticLong]) pythonContext docstringDiagnosticLong
  = None.
Proof.
  assert (Hcall : mkSetCall python recipeUri [] ∈
            published (updateDiagnostics (pythonHost [docstringDiagnosticLong])
                         (fun _ => 0) pythonUri noCollections))
    by (vm_compute; left).
  destruct (always_ignored_never_published _ _ _ _ _ Hcall) as (ctx & Hsetup & _ & Hin).
  injection Hsetup as <-.
  split; [reflexivity |]. split; [reflexivity |].
  now apply Hin.
Defined.

(** C3 fails as it is stated: a Pylint diagnostic whose code is the bare
    "C0114" has a pair of the table as the claim lists it, the first rule
    does not match it, and it is published. *)
Lemma short_pylint_code_counterexample :
  inTable shortCodeTable docstringDiagnostic = true /\
  source docstringDiagnostic = Some "Pylint" /\
  code docstringDiagnostic = CodePlain (CodeString "C0114") /\
  checkIsAlwaysIgnoredDiagnostic docstringDiagnostic = Resolved false /\
  published (updateDiagnostics (pythonHost [docstringDiagnostic]) (fun _ => 0)
               pythonUri noCollections)
  = [mkSetCall python recipeUri [adjustedDiagnostic python docstringDiagnostic someRange]].
Proof. repeat split; reflexivity. Qed.

(** ** C6: unsupported sources *)

Lemma checkHasSupportedSource_false (d : Diagnostic) :
  hasNoSupportedSource d <-> checkHasSupportedSource d = false.
Proof.
  unfold hasNoSupportedSource, checkHasSupportedSource, supportedSources.
  destruct (source d) as [s|]; cbn [existsb].
  - rewrite orb_false_r, !orb_false_iff. split.
    + intros H.
      assert (Hinc : forall name, name ∈ ["Flake8"; "Pylance"; "Pylint"; "shellcheck"] ->
                JsString.includes s name = false).
      { intros name Hname. destruct (JsString.includes s name) eqn:E; [| reflexivity].
        apply includes_spec in E as (a & b & E).
        exfalso. exact (H s eq_refl name Hname a b E). }
      repeat split; apply Hinc; set_solver.
    + intros (H1 & H2 & H3 & H4) s' [= <-] name Hname a b ->.
      assert (E : forall n, JsString.includes (a ++ n ++ b) n = true)
        by (intros n; apply includes_spec; now exists a, b).
      repeat (apply elem_of_cons in Hname as [->|Hname]; [rewrite E in *; discriminate |]).
      now apply elem_of_nil in Hname.
  - split; [reflexivity | intros _ s [=]].
Qed.

(** C6.  Whenever [updateDiagnostics] publishes, what it sets is, up to
    order, what the tasks of the raw diagnostics with a supported source
    yielded; the task of a diagnostic whose source field is absent or
    contains none of "Flake8", "Pylance", "Pylint", "shellcheck" returns at
    once and yields nothing. *)
Theorem unsupported_source_never_published
    (h : Host) (time : nat -> nat) (uri : Uri) (dc : DiagnosticCollections)
    (call : SetCall) :
  call ∈ published (updateDiagnostics h time uri dc) ->
  exists ctx,
    updateDiagnosticsSetup h uri = Resolved (Some ctx) /\
    diagnostics call ≡ₚ
      omap (taskYield h ctx) (List.filter checkHasSupportedSource (dirtyDiagnosticsOf h ctx)) /\
    (forall d, hasNoSupportedSource d ->
       updateDiagnosticsTask h ctx d = Resolved None /\ taskYield h ctx d = None).
Proof.
  intros Hcall.
  destruct (updateDiagnostics_published _ _ _ _ _ Hcall)
    as (ctx & Hsetup & _ & _ & _ & Hperm & _).
  assert (Hno : forall d, checkHasSupportedSource d = false ->
            updateDiagnosticsTask h ctx d = Resolved None).
  { intros d Hd. unfold updateDiagnosticsTask. now rewrite Hd. }
  exists ctx. split; [assumption |]. split.
  - rewrite Hperm, (omap_yield_filter h ctx checkHasSupportedSource); [reflexivity |].
    intros d Hd. unfold taskYield. now rewrite (Hno d Hd).
  - intros d Hd. apply checkHasSupportedSource_false in Hd.
    unfold taskYield. now rewrite (Hno d Hd).
Qed.

Lemma unsupported_source_never_published_witness :
  published (updateDiagnostics
               (recipeHost "${FOO}" [eslintDiagnostic; sc2154Diagnostic; sourcelessDiagnostic]
                  (Some bash) [])
               (fun _ => 0) shellUri noCollections)
  = [sc2154Call] /\
  taskYield sc2154Host sc2154Context eslintDiagnostic = None /\
  taskYield sc2154Host sc2154Context sourcelessDiagnostic = None.
Proof.
  assert (Hcall : sc2154Call ∈
            published (updateDiagnostics sc2154Host (fun _ => 0) shellUri noCollections))
    by (vm_compute; left).
  destruct (unsupported_source_never_published _ _ _ _ _ Hcall) as (ctx & Hsetup & _ & Hno).
  injection Hsetup as <-.
  split; [reflexivity |]. split.
  - apply Hno. apply checkHasSupportedSource_false. reflexivity.
  - apply Hno. apply checkHasSupportedSource_false. reflexivity.
Defined.

(** ** C7: URIs that are not embedded-language documents *)

(** C7.  For a URI whose file extension is neither ".py" nor ".sh",
    [updateDiagnostics] resolves without a call of [set] and returns the
    two collections as it found them. *)
Theorem other_extension_no_effect
    (h : Host) (time : nat -> nat) (uri : Uri) (dc : DiagnosticCollections) :
  extname h (fsPath uri) <> ".py" ->
  extname h (fsPath uri) <> ".sh" ->
  getEmbeddedLanguageType h uri = None /\
  updateDiagnostics h time uri dc = mkRun (Resolved tt) dc [].
Proof.
  intros Hpy Hsh.
  assert (Hnone : getEmbeddedLanguageType h uri = None).
  { unfold getEmbeddedLanguageType.
    destruct (String.eqb_spec (extname h (fsPath uri)) ".py"); [contradiction |].
    destruct (String.eqb_spec (extname h (fsPath uri)) ".sh"); [contradiction |].
    reflexivity. }
  split; [exact Hnone |].
  unfold updateDiagnostics, updateDiagnosticsSetup. now rewrite Hnone.
Qed.

Lemma other_extension_no_effect_witness :
  extname sc2154Host (fsPath recipeUri) = ".bb" /\
  updateDiagnostics sc2154Host (fun _ => 0) recipeUri noCollections
  = mkRun (Resolved tt) noCollections [].
Proof.
  split; [reflexivity |].
  apply (other_extension_no_effect sc2154Host (fun _ => 0) recipeUri noCollections);
    discriminate.
Defined.

(** ** C8: calling twice *)

Lemma collectionSet_twice (t : EmbeddedLanguageType) (uri : Uri) (ds : list Diagnostic)
    (dc : DiagnosticCollections) :
  collectionSet t uri ds (collectionSet t uri ds dc) = collectionSet t uri ds dc.
Proof. destruct t; simpl; now rewrite insert_insert_eq. Qed.

(** C8.  Two calls of [updateDiagnostics] for the same URI against the same
    host, the second starting from the collections the first left, settle
    alike and make the same calls of [set], with the same diagnostics up to
    the order in which the tasks completed; when the tasks complete in the
    same order the calls of [set] are equal, and the second call leaves the
    collections as the first did. *)
Theorem updateDiagnostics_twice_same_set
    (h : Host) (time1 time2 : nat -> nat) (uri : Uri) (dc : DiagnosticCollections) :
  settled (updateDiagnostics h time2 uri (collections (updateDiagnostics h time1 uri dc)))
  = settled (updateDiagnostics h time1 uri dc) /\
  Forall2 sameCall
    (published (updateDiagnostics h time1 uri dc))
    (published (updateDiagnostics h time2 uri (collections (updateDiagnostics h time1 uri dc)))) /\
  published (updateDiagnostics h time1 uri (collections (updateDiagnostics h time1 uri dc)))
  = published (updateDiagnostics h time1 uri dc) /\
  collections (updateDiagnostics h time1 uri (collections (updateDiagnostics h time1 uri dc)))
  = collections (updateDiagnostics h time1 uri dc).
Proof.
  unfold updateDiagnostics.
  destruct (updateDiagnosticsSetup h uri) as [[ctx|]|]; simpl;
    try (repeat split; constructor).
  destruct (promiseAll _) as [rs|] eqn:Ep; simpl;
    try (repeat split; constructor).
  repeat split.
  - constructor; [| constructor]. repeat split. simpl.
    unfold cleanDiagnosticsOf. apply omap_perm.
    now rewrite !completionOrder_perm.
  - apply collectionSet_twice.
Qed.

(** ** C9: nothing to review *)

(** C9.  When the host reports no URI with diagnostics, [reviewDiagnostics]
    makes no call of [set] on either collection, and leaves both as they
    were. *)
Theorem reviewDiagnostics_nothing_to_review
    (h : Host) (finish : nat -> nat) (times : Uri -> nat -> nat)
    (dc : DiagnosticCollections) :
  getAllDiagnostics h = [] ->
  published (reviewDiagnostics h finish times dc) = [] /\
  reviewDiagnostics h finish times dc = mkRun (Resolved tt) dc [].
Proof.
  intros Hnone. unfold reviewDiagnostics. rewrite Hnone. split; reflexivity.
Qed.

Lemma reviewDiagnostics_nothing_to_review_witness :
  getAllDiagnostics (pythonHost []) = [] /\
  published (reviewDiagnostics (pythonHost []) (fun _ => 0) (fun _ _ => 0) noCollections) = [].
Proof.
  split; [reflexivity |].
  apply (reviewDiagnostics_nothing_to_review (pythonHost []) (fun _ => 0) (fun _ _ => 0)
           noCollections eq_refl).
Defined.

(** ** C10: the fields that are carried over *)

(** C10.  Every diagnostic that [updateDiagnostics] publishes is the
    adjusted form of one of the raw diagnostics, with the same severity,
    code, related information, tags, [hasDiagnosticCode] and other
    properties; only the message, the range and the source are written
    anew. *)
Theorem published_keeps_other_fields
    (h : Host) (time : nat -> nat) (uri : Uri) (dc : DiagnosticCollections)
    (call : SetCall) (d' : Diagnostic) :
  call ∈ published (updateDiagnostics h time uri dc) ->
  d' ∈ diagnostics call ->
  exists ctx d r,
    updateDiagnosticsSetup h uri = Resolved (Some ctx) /\
    d ∈ dirtyDiagnosticsOf h ctx /\
    mappedTo h ctx d r /\
    severity d' = severity d /\
    code d' = code d /\
    relatedInformation d' = relatedInformation d /\
    tags d' = tags d /\
    hasDiagnosticCode d' = hasDiagnosticCode d /\
    otherProperties d' = otherProperties d /\
    message d' = fixDiagnosticMessagePythonImport d /\
    range d' = r /\
    source d' = Some (adjustedSource (embeddedLanguageType ctx) d).
Proof.
  intros Hcall Hd'.
  destruct (updateDiagnostics_published _ _ _ _ _ Hcall)
    as (ctx & Hsetup & _ & _ & _ & Hperm & _).
  rewrite Hperm in Hd'.
  apply elem_of_omap_yield in Hd' as (d & Hd & Hy).
  apply updateDiagnosticsTask_Some in Hy as (_ & r & Hm & _ & _ & ->).
  exists ctx, d, r. repeat split; assumption.
Qed.

Lemma published_keeps_other_fields_witness :
  exists d,
    d ∈ dirtyDiagnosticsOf sc2154Host sc2154Context /\
    severity (adjustedDiagnostic bash sc2154Diagnostic someRange) = severity d /\
    code (adjustedDiagnostic bash sc2154Diagnostic someRange) = code d.
Proof.
  assert (Hcall : sc2154Call ∈
            published (updateDiagnostics sc2154Host (fun _ => 0) shellUri noCollections))
    by (vm_compute; left).
  assert (Hin : adjustedDiagnostic bash sc2154Diagnostic someRange ∈ diagnostics sc2154Call)
    by left.
  destruct (published_keeps_other_fields _ _ _ _ _ _ Hcall Hin)
    as (ctx & d & r & Hsetup & Hd & _ & Hsev & Hcode & _).
  injection Hsetup as <-.
  exists d. auto.
Defined.

(** ** C4: the import-warning fixer *)

(** C4.  For every Flake8 F811 diagnostic whose message is
    "redefinition of unused 'x' from line 3" the fixer returns
    "redefinition of unused 'x' (imported by BitBake)"; for every such
    diagnostic whose message is "redefinition of unused 'x' from line 9"
    it returns the message as it is; and for every diagnostic whose
    message none of the three patterns matches it returns the message as
    it is. *)
Theorem fixDiagnosticMessagePythonImport_examples (d : Diagnostic) :
  (hasSourceWithCode d "Flake8" "F811" = true ->
   message d = "redefinition of unused 'x' from line 3" ->
   fixDiagnosticMessagePythonImport d = "redefinition of unused 'x' (imported by BitBake)") /\
  (hasSourceWithCode d "Flake8" "F811" = true ->
   message d = "redefinition of unused 'x' from line 9" ->
   fixDiagnosticMessagePythonImport d = message d) /\
  (RegExp.exec redefinitionRegex (message d) = None ->
   RegExp.exec reimportRegex (message d) = None ->
   RegExp.exec redefiningRegex (message d) = None ->
   fixDiagnosticMessagePythonImport d = message d).
Proof.
  unfold fixDiagnosticMessagePythonImport, fix_. repeat split.
  - intros -> ->. reflexivity.
  - intros -> ->. reflexivity.
  - intros -> -> ->. now repeat destruct (hasSourceWithCode _ _ _).
Qed.

Lemma fixDiagnosticMessagePythonImport_examples_witness :
  fixDiagnosticMessagePythonImport (f811Diagnostic "redefinition of unused 'x' from line 3")
  = "redefinition of unused 'x' (imported by BitBake)" /\
  fixDiagnosticMessagePythonImport (f811Diagnostic "redefinition of unused 'x' from line 9")
  = "redefinition of unused 'x' from line 9" /\
  fixDiagnosticMessagePythonImport (f811Diagnostic "undefined name 'x'")
  = "undefined name 'x'".
Proof.
  split; [| split].
  - destruct (fixDiagnosticMessagePythonImport_examples
                (f811Diagnostic "redefinition of unused 'x' from line 3")) as (H3 & _ & _).
    apply H3; reflexivity.
  - destruct (fixDiagnosticMessagePythonImport_examples
                (f811Diagnostic "redefinition of unused 'x' from line 9")) as (_ & H9 & _).
    apply H9; reflexivity.
  - destruct (fixDiagnosticMessagePythonImport_examples
                (f811Diagnostic "undefined name 'x'")) as (_ & _ & Hnone).
    apply Hnone; reflexivity.
Defined.

(** ** Greedy runs *)

Section Greedy.
Context {R : Type} (cls : ascii -> bool) (k : nat -> string -> option R).

(** On a run of [cls] characters followed by something else, [c+] takes the
    whole run when the rest of the pattern accepts what follows. *)
Lemma plus_greedy (v rest : string) (pos : nat) (r : R) :
  v <> "" -> allIn cls v = true -> stopsAt cls rest = true ->
  k (pos + String.length v) rest = Some r ->
  RegExp.plus cls k pos (v ++ rest) = Some r.
Proof.
  revert pos. induction v as [|c v IH]; intros pos Hne Hall Hstop Hk; [contradiction |].
  simpl in Hall. apply andb_true_iff in Hall as [Hc Hall].
  cbn [String.append RegExp.plus]. rewrite Hc.
  destruct v as [|c' v'].
  - simpl in *. replace (pos + 1) with (S pos) in Hk by lia.
    destruct rest as [|x rest]; simpl in *.
    + exact Hk.
    + apply negb_true_iff in Hstop. rewrite Hstop. exact Hk.
  - rewrite (IH (S pos)); [reflexivity | discriminate | assumption | assumption |].
    rewrite <- Hk. f_equal. simpl. lia.
Qed.

(** Whatever [c+] took is a non-empty run of [cls] characters. *)
Lemma plus_inv (s : string) (pos : nat) (r : R) :
  RegExp.plus cls k pos s = Some r ->
  exists v rest,
    s = v ++ rest /\ v <> "" /\ allIn cls v = true /\
    k (pos + String.length v) rest = Some r.
Proof.
  revert pos. induction s as [|c s IH]; intros pos; simpl; [discriminate |].
  destruct (cls c) eqn:Hc; [| discriminate].
  destruct (RegExp.plus cls k (S pos) s) as [r'|] eqn:Hp.
  - intros [= ->]. apply IH in Hp as (v & rest & -> & _ & Hall & Hk).
    exists (String c v), rest. simpl. rewrite Hc, Hall.
    repeat split; try discriminate.
    rewrite <- Hk. f_equal. lia.
  - intros Hk. exists (String c ""), s. simpl. rewrite Hc.
    repeat split; try discriminate.
    rewrite <- Hk. f_equal. lia.
Qed.

(** [c+] fails where no [cls] character stands. *)
Lemma plus_stops (s : string) (pos : nat) :
  stopsAt cls s = true -> RegExp.plus cls k pos s = None.
Proof.
  destruct s as [|c s]; simpl; [reflexivity |].
  intros H. apply negb_true_iff in H. now rewrite H.
Qed.

End Greedy.

Lemma searchFrom_here (r : RegExp.t) (pos : nat) (s : string) (m : RegExp.Match) :
  RegExp.matchAt r pos s = Some m -> RegExp.searchFrom r pos s = Some m.
Proof. intros H. destruct s; cbn [RegExp.searchFrom]; now rewrite H. Qed.

Lemma isIdentifier_spec (v : string) :
  isIdentifier v = true <-> v <> "" /\ allIn JsString.isWord v = true.
Proof.
  destruct v as [|c v]; unfold isIdentifier.
  - split; [discriminate | intros [H _]; contradiction].
  - split; [intros H; split; [discriminate | exact H] | now intros [_ H]].
Qed.

(** ** The two patterns of the shellcheck rule *)

(** [/\w+/] on the text of a variable expansion finds the name between the
    braces. *)
Lemma wordRegex_expansion (v : string) :
  isIdentifier v = true ->
  RegExp.exec wordRegex ("${" ++ v ++ "}") = Some (RegExp.mkMatch 2 (2 + String.length v) []).
Proof.
  intros Hv. apply isIdentifier_spec in Hv as [Hne Hall].
  unfold RegExp.exec, wordRegex.
  change ("${" ++ v ++ "}") with (String "$" (String "{" (v ++ "}"))).
  cbn [RegExp.searchFrom]. unfold RegExp.matchAt. cbn [RegExp.run].
  rewrite (plus_stops JsString.isWord _ (String "$" _)) by reflexivity.
  rewrite (plus_stops JsString.isWord _ (String "{" _)) by reflexivity.
  apply searchFrom_here. unfold RegExp.matchAt. cbn [RegExp.run].
  now apply plus_greedy.
Qed.

(** The position asked of the definition service for the text [${v}]: the
    line of the end of the range, just after the name. *)
Lemma sc2154Position_expansion (doc : TextDocument) (r : Range) (v : string) :
  isIdentifier v = true ->
  getText doc r = "${" ++ v ++ "}" ->
  sc2154Position doc r
  = mkPosition (line (end_ r)) (character (start r) + 2 + String.length v).
Proof.
  intros Hv Htext. unfold sc2154Position. rewrite Htext.
  rewrite (wordRegex_expansion v Hv). cbn [RegExp.index RegExp.lastIndex Nat.eqb].
  unfold RegExp.matched. cbn [RegExp.index RegExp.lastIndex].
  change 2 with (String.length "${") at 2 3.
  now rewrite (slice_middle "${" v "}").
Qed.

(** The name the rule reads in the message: the message is that name
    followed by " is referenced but not assigned.". *)
Lemma sc2154VariableName_spec (msg w : string) :
  sc2154VariableName msg = Some w <->
  isIdentifier w = true /\ msg = w ++ " is referenced but not assigned.".
Proof.
  unfold sc2154VariableName, RegExp.exec. split.
  - intros H.
    assert (Hlater : forall s pos, RegExp.searchFrom notAssignedRegex (S pos) s = None).
    { induction s as [|c s IH]; intros pos; cbn [RegExp.searchFrom]; [reflexivity |].
      apply IH. }
    assert (Hm : exists m, RegExp.matchAt notAssignedRegex 0 msg = Some m /\
                           RegExp.group msg m "variableName" = Some w).
    { destruct msg as [|c msg]; cbn [RegExp.searchFrom] in H.
      - destruct (RegExp.matchAt notAssignedRegex 0 "") as [m|]; [eauto | discriminate].
      - destruct (RegExp.matchAt notAssignedRegex 0 (String c msg)) as [m|]; [eauto |].
        rewrite Hlater in H. discriminate. }
    clear H. destruct Hm as (m & Hm & Hg).
    unfold RegExp.matchAt, notAssignedRegex in Hm. cbn [RegExp.seq RegExp.run Nat.eqb] in Hm.
    apply plus_inv in Hm as (v & rest & -> & Hne & Hall & Hk).
    destruct (JsString.dropPrefix _ rest) as [rest'|] eqn:Hd; [| discriminate].
    apply dropPrefix_spec in Hd. destruct rest'; [| discriminate].
    injection Hk as <-. rewrite append_nil_r in Hd. subst rest.
    unfold RegExp.group in Hg. cbn in Hg. unfold JsString.slice in Hg.
    rewrite Nat.sub_0_r, substring_0_append in Hg. injection Hg as <-.
    split; [| reflexivity]. apply isIdentifier_spec. now split.
  - intros [Hw ->]. apply isIdentifier_spec in Hw as [Hne Hall].
    assert (Hm : RegExp.matchAt notAssignedRegex 0 (w ++ " is referenced but not assigned.")
                 = Some (RegExp.mkMatch 0
                           (String.length w + String.length " is referenced but not assigned.")
                           [("variableName", (0, String.length w))])).
    { unfold RegExp.matchAt, notAssignedRegex. cbn [RegExp.seq RegExp.run Nat.eqb].
      apply plus_greedy; try assumption; try reflexivity. }
    rewrite (searchFrom_here _ _ _ _ Hm).
    unfold RegExp.group. cbn. unfold JsString.slice.
    now rewrite Nat.sub_0_r, substring_0_append.
Qed.

(** ** C5: shellcheck's SC2154 *)

Lemma hasSourceWithCode_other_code (d : Diagnostic) (src c src' c' : string) :
  hasSourceWithCode d src c = true -> c <> c' -> hasSourceWithCode d src' c' = false.
Proof.
  unfold hasSourceWithCode.
  destruct (sourceIncludes d src); simpl; [| discriminate].
  destruct (sourceIncludes d src'); simpl; [| reflexivity].
  destruct (code d) as [|[s|n]|[s|n] target]; simpl; try discriminate; try reflexivity.
  all: intros Hs Hne; apply String.eqb_eq in Hs; subst s; now apply String.eqb_neq.
Qed.

Lemma hasSourceWithCode_supported (d : Diagnostic) (c : string) :
  hasSourceWithCode d "shellcheck" c = true -> checkHasSupportedSource d = true.
Proof.
  unfold hasSourceWithCode, sourceIncludes, checkHasSupportedSource, supportedSources.
  destruct (source d) as [s|]; simpl; [| discriminate].
  destruct (JsString.includes s "shellcheck"); simpl; [| discriminate].
  intros _. now rewrite !orb_true_r.
Qed.

Section Sc2154.
Context (h : Host) (d : Diagnostic) (doc : TextDocument) (r : Range).
Hypothesis Hsc : hasSourceWithCode d "shellcheck" "SC2154" = true.

Lemma sc2154_not_always_ignored : checkIsAlwaysIgnoredDiagnostic d = Resolved false.
Proof.
  rewrite checkIsAlwaysIgnoredDiagnostic_table. f_equal.
  unfold inTable, alwaysIgnoredTable. cbn [existsb fst snd].
  repeat (erewrite (hasSourceWithCode_other_code d "shellcheck" "SC2154");
          [| exact Hsc | discriminate]).
  reflexivity.
Qed.

Lemma sc2154_not_python_undefined :
  checkIsIgnoredDiagnosticOnPythonUndefinedVariable h d doc r = Resolved false.
Proof.
  unfold checkIsIgnoredDiagnosticOnPythonUndefinedVariable.
  repeat (erewrite (hasSourceWithCode_other_code d "shellcheck" "SC2154");
          [| exact Hsc | discriminate]).
  reflexivity.
Qed.

(** The answer of the rule once the definition service has answered. *)
Lemma sc2154_rule_value (defs : list Location) :
  getDefinition h doc (sc2154Position doc r) = Resolved defs ->
  checkIsIgnoredShellcheckSc2154 h d doc r
  = Resolved (match defs with
              | [] => commonDirectoriesHas h (sc2154VariableName (message d))
              | _ :: _ => true
              end).
Proof.
  intros Hdefs. unfold checkIsIgnoredShellcheckSc2154. rewrite Hsc. simpl.
  rewrite Hdefs. now destruct defs.
Qed.

(** When the rule matches, so does the chain. *)
Lemma sc2154_chain_true :
  checkIsIgnoredShellcheckSc2154 h d doc r = Resolved true ->
  checkIsIgnoredDiagnostic h d doc r = Resolved true.
Proof.
  intros Hrule. unfold checkIsIgnoredDiagnostic.
  rewrite sc2154_not_always_ignored. simpl.
  destruct (checkIsIgnoredDiagnosticOnAnonymousFunctionFirstLine_resolves d) as [[|] ->];
    simpl; [reflexivity |].
  rewrite sc2154_not_python_undefined. simpl. now rewrite Hrule.
Qed.

End Sc2154.

Lemma commonDirectoriesHas_spec (h : Host) (msg : string) :
  commonDirectoriesHas h (sc2154VariableName msg) = true <->
  exists w, isIdentifier w = true /\
            msg = w ++ " is referenced but not assigned." /\
            w ∈ commonDirectoriesVariables h.
Proof.
  unfold commonDirectoriesHas. split.
  - destruct (sc2154VariableName msg) as [w|] eqn:E; [| discriminate].
    intros Hw. apply bool_decide_eq_true in Hw.
    apply sc2154VariableName_spec in E as [Hid ->]. now exists w.
  - intros (w & Hid & Hmsg & Hw).
    assert (E : sc2154VariableName msg = Some w) by now apply sc2154VariableName_spec.
    rewrite E. now apply bool_decide_eq_true.
Qed.

(** A task whose diagnostic the chain ignores at the mapped range yields
    nothing. *)
Lemma taskYield_ignored_at (h : Host) (ctx : Context) (d : Diagnostic) (r : Range) :
  mappedTo h ctx d r ->
  checkIsIgnoredDiagnostic h d (originalTextDocument ctx) r = Resolved true ->
  taskYield h ctx d = None.
Proof.
  intros Hm Hc. apply taskYield_None. right. intros r' (Hm' & _ & Hn).
  unfold mappedTo in *. rewrite Hm in Hm'. injection Hm' as <-.
  apply checkIsIgnoredDiagnostic_false in Hn. congruence.
Qed.

(** What a task yielded is in every set the call makes. *)
Lemma yielded_is_published (h : Host) (time : nat -> nat) (uri : Uri)
    (dc : DiagnosticCollections) (ctx : Context) (call : SetCall) (d d' : Diagnostic) :
  updateDiagnosticsSetup h uri = Resolved (Some ctx) ->
  call ∈ published (updateDiagnostics h time uri dc) ->
  d ∈ dirtyDiagnosticsOf h ctx ->
  updateDiagnosticsTask h ctx d = Resolved (Some d') ->
  d' ∈ diagnostics call.
Proof.
  intros Hsetup Hcall Hd Hy.
  destruct (updateDiagnostics_published _ _ _ _ _ Hcall)
    as (ctx' & Hsetup' & _ & _ & _ & Hperm & _).
  rewrite Hsetup in Hsetup'. injection Hsetup' as <-.
  rewrite Hperm. apply elem_of_omap_yield. eauto.
Qed.

(** [Promise.all] resolves when none of the promises rejects. *)
Lemma promiseAll_resolves {A B : Type} (f : A -> Outcome B) (l : list A) :
  (forall a, a ∈ l -> f a <> Rejected) ->
  exists rs, promiseAll (map f l) = Resolved rs.
Proof.
  induction l as [|a l IH]; intros Hall; simpl; [eauto |].
  destruct (f a) as [b|] eqn:Ea; simpl.
  - destruct IH as [rs Hrs].
    + intros x Hx. apply Hall. now right.
    + rewrite Hrs. simpl. eauto.
  - destruct (Hall a); [left | exact Ea].
Qed.

(** When the setup succeeds and no task rejects, the call resolves after one
    call of [set], and what a task yielded is among the diagnostics set. *)
Lemma resolved_call_publishes (h : Host) (time : nat -> nat) (uri : Uri)
    (dc : DiagnosticCollections) (ctx : Context) (d d' : Diagnostic) :
  updateDiagnosticsSetup h uri = Resolved (Some ctx) ->
  d ∈ dirtyDiagnosticsOf h ctx ->
  updateDiagnosticsTask h ctx d = Resolved (Some d') ->
  (forall d0, d0 ∈ dirtyDiagnosticsOf h ctx -> updateDiagnosticsTask h ctx d0 <> Rejected) ->
  exists ds,
    updateDiagnostics h time uri dc
    = mkRun (Resolved tt)
        (collectionSet (embeddedLanguageType ctx) (doc_uri (originalTextDocument ctx)) ds dc)
        [mkSetCall (embeddedLanguageType ctx) (doc_uri (originalTextDocument ctx)) ds] /\
    d' ∈ ds.
Proof.
  intros Hsetup Hd Hy Hall.
  destruct (promiseAll_resolves (updateDiagnosticsTask h ctx) (dirtyDiagnosticsOf h ctx) Hall)
    as [rs Hrs].
  exists (cleanDiagnosticsOf time rs). split.
  - unfold updateDiagnostics. rewrite Hsetup.
    unfold dirtyDiagnosticsOf in Hrs. now rewrite Hrs.
  - rewrite (promiseAll_yield _ _ _ _ Hrs), cleanDiagnosticsOf_perm.
    apply elem_of_omap_yield. eauto.
Qed.

(** C5, as the code has it.  Take a diagnostic of shellcheck with code
    SC2154 whose mapped range [r] covers the text [${v}], [v] being a
    variable name; the definition service is asked at the position just
    after the name.  If it answers with at least one definition, the rule
    matches and the diagnostic is not published.  If it answers with none
    and the message is "[w] is referenced but not assigned." for a name [w]
    of the common directories, the rule matches too: the name is the one of
    the message, not the one of the text.  If it answers with none and the
    message names no variable of the common directories, the rule does not
    match; the task of the diagnostic then yields it with the range [r],
    provided [r] is the range it was mapped to, the language at the end of
    [r] is the one being processed, and the rule on anonymous functions
    does not match either.  A call of [updateDiagnostics] that has this
    diagnostic among the raw ones then publishes it: it resolves after one
    call of [set] whose diagnostics hold it, provided the task of no raw
    diagnostic of the document rejects; one rejected query gives up the
    whole publication. *)
Theorem sc2154_over_variable_expansion
    (h : Host) (ctx : Context) (d : Diagnostic) (r : Range) (v : string) :
  hasSourceWithCode d "shellcheck" "SC2154" = true ->
  isIdentifier v = true ->
  getText (originalTextDocument ctx) r = "${" ++ v ++ "}" ->
  (forall defs,
     getDefinition h (originalTextDocument ctx)
       (mkPosition (line (end_ r)) (character (start r) + 2 + String.length v))
     = Resolved defs ->
     defs <> [] ->
     checkIsIgnoredShellcheckSc2154 h d (originalTextDocument ctx) r = Resolved true /\
     checkIsIgnoredDiagnostic h d (originalTextDocument ctx) r = Resolved true /\
     (mappedTo h ctx d r -> taskYield h ctx d = None)) /\
  (forall w,
     getDefinition h (originalTextDocument ctx)
       (mkPosition (line (end_ r)) (character (start r) + 2 + String.length v))
     = Resolved [] ->
     isIdentifier w = true ->
     message d = w ++ " is referenced but not assigned." ->
     w ∈ commonDirectoriesVariables h ->
     checkIsIgnoredShellcheckSc2154 h d (originalTextDocument ctx) r = Resolved true /\
     checkIsIgnoredDiagnostic h d (originalTextDocument ctx) r = Resolved true /\
     (mappedTo h ctx d r -> taskYield h ctx d = None)) /\
  (getDefinition h (originalTextDocument ctx)
     (mkPosition (line (end_ r)) (character (start r) + 2 + String.length v))
   = Resolved [] ->
   (forall w, isIdentifier w = true ->
              message d = w ++ " is referenced but not assigned." ->
              w ∉ commonDirectoriesVariables h) ->
   checkIsIgnoredShellcheckSc2154 h d (originalTextDocument ctx) r = Resolved false /\
   (mappedTo h ctx d r ->
    sameKindAt h ctx r ->
    checkIsIgnoredDiagnosticOnAnonymousFunctionFirstLine d = Resolved false ->
    updateDiagnosticsTask h ctx d
    = Resolved (Some (adjustedDiagnostic (embeddedLanguageType ctx) d r)) /\
    range (adjustedDiagnostic (embeddedLanguageType ctx) d r) = r /\
    forall time uri dc,
      updateDiagnosticsSetup h uri = Resolved (Some ctx) ->
      d ∈ dirtyDiagnosticsOf h ctx ->
      (forall d0, d0 ∈ dirtyDiagnosticsOf h ctx ->
                  updateDiagnosticsTask h ctx d0 <> Rejected) ->
      exists ds,
        updateDiagnostics h time uri dc
        = mkRun (Resolved tt)
            (collectionSet (embeddedLanguageType ctx)
               (doc_uri (originalTextDocument ctx)) ds dc)
            [mkSetCall (embeddedLanguageType ctx)
               (doc_uri (originalTextDocument ctx)) ds] /\
        adjustedDiagnostic (embeddedLanguageType ctx) d r ∈ ds)).
Proof.
  intros Hsc Hv Htext.
  rewrite <- (sc2154Position_expansion (originalTextDocument ctx) r v Hv Htext).
  split; [| split].
  - intros defs Hdefs Hne.
    assert (Hrule : checkIsIgnoredShellcheckSc2154 h d (originalTextDocument ctx) r
                    = Resolved true).
    { rewrite (sc2154_rule_value h d _ r Hsc defs Hdefs). now destruct defs. }
    pose proof (sc2154_chain_true h d _ r Hsc Hrule) as Hchain.
    repeat split; try assumption.
    intros Hm. now apply (taskYield_ignored_at h ctx d r).
  - intros w Hdefs Hw Hmsg Hin.
    assert (Hrule : checkIsIgnoredShellcheckSc2154 h d (originalTextDocument ctx) r
                    = Resolved true).
    { rewrite (sc2154_rule_value h d _ r Hsc [] Hdefs). f_equal.
      apply commonDirectoriesHas_spec. now exists w. }
    pose proof (sc2154_chain_true h d _ r Hsc Hrule) as Hchain.
    repeat split; try assumption.
    intros Hm. now apply (taskYield_ignored_at h ctx d r).
  - intros Hdefs Hnot.
    assert (Hrule : checkIsIgnoredShellcheckSc2154 h d (originalTextDocument ctx) r
                    = Resolved false).
    { rewrite (sc2154_rule_value h d _ r Hsc [] Hdefs). f_equal.
      destruct (commonDirectoriesHas h (sc2154VariableName (message d))) eqn:E;
        [| reflexivity].
      apply commonDirectoriesHas_spec in E as (w & Hw & Hmsg & Hin).
      now destruct (Hnot w Hw Hmsg). }
    split; [exact Hrule |].
    intros Hm Hk Hanon.
    assert (Hy : updateDiagnosticsTask h ctx d
                 = Resolved (Some (adjustedDiagnostic (embeddedLanguageType ctx) d r))).
    { apply updateDiagnosticsTask_Some. split.
      - now apply (hasSourceWithCode_supported d "SC2154").
      - exists r. repeat split; try assumption.
        + now apply sc2154_not_always_ignored.
        + now apply sc2154_not_python_undefined. }
    repeat split; try assumption.
    intros time uri dc Hsetup Hd Hall.
    now apply (resolved_call_publishes h time uri dc ctx d).
Qed.

Lemma sc2154_over_variable_expansion_witness :
  (exists ds,
     updateDiagnostics sc2154Host (fun _ => 0) shellUri noCollections
     = mkRun (Resolved tt) (collectionSet bash recipeUri ds noCollections)
         [mkSetCall bash recipeUri ds] /\
     adjustedDiagnostic bash sc2154Diagnostic someRange ∈ ds) /\
  checkIsIgnoredShellcheckSc2154
    (recipeHost "${FOO}" [sc2154Diagnostic] (Some bash) [mkLocation recipeUri someRange])
    sc2154Diagnostic (recipeDocument "${FOO}") someRange
  = Resolved true /\
  checkIsIgnoredShellcheckSc2154
    (recipeHost "${WORKDIR}" [workdirDiagnostic] (Some bash) [])
    workdirDiagnostic (recipeDocument "${WORKDIR}") someRange
  = Resolved true.
Proof.
  split; [| split].
  - destruct (sc2154_over_variable_expansion sc2154Host sc2154Context sc2154Diagnostic
                someRange "FOO" eq_refl eq_refl eq_refl) as (_ & _ & Hpub).
    destruct Hpub as [_ Hyield]; [reflexivity | |].
    + intros w Hw Hmsg.
      assert (E : sc2154VariableName (message sc2154Diagnostic) = Some w)
        by now apply sc2154VariableName_spec.
      injection E as <-. intros Hin. vm_compute in Hin. discriminate.
    + destruct (Hyield eq_refl eq_refl eq_refl) as (_ & _ & Hcall).
      apply (Hcall (fun _ => 0) shellUri noCollections eq_refl); [left |].
      intros d0 Hd0. apply list_elem_of_singleton in Hd0. subst d0.
      intros Hrejected. vm_compute in Hrejected. discriminate.
  - destruct (sc2154_over_variable_expansion
                (recipeHost "${FOO}" [sc2154Diagnostic] (Some bash)
                   [mkLocation recipeUri someRange])
                sc2154Context sc2154Diagnostic someRange "FOO" eq_refl eq_refl eq_refl)
      as (Hdef & _ & _).
    apply (Hdef [mkLocation recipeUri someRange]); [reflexivity | discriminate].
  - destruct (sc2154_over_variable_expansion
                (recipeHost "${WORKDIR}" [workdirDiagnostic] (Some bash) [])
                (mkContext bash (recipeDocument "${WORKDIR}") (mkInfos shellUri [])
                   (recipeDocument ""))
                workdirDiagnostic someRange "WORKDIR" eq_refl eq_refl eq_refl)
      as (_ & Hcommon & _).
    apply (Hcommon "WORKDIR"); reflexivity.
Defined.

(** C5 fails as it is stated.  First input: the text is [${FOO}], the
    definition service knows nothing, [FOO] is not a common directory and
    the message is not the one about [FOO]; the claim has the diagnostic
    published, yet the rule matches, because the message names [WORKDIR],
    and nothing is published.  Second input: the same with the message
    about [FOO], at a position that the host reports as Python while Bash
    is being processed; the rule does not match and nothing is published.
    Third input: the message is about [FOO], the position is in a Bash
    region and the task yields the diagnostic, but the question about the
    language fails for another diagnostic of the document; the call
    rejects and nothing is published. *)
Lemma sc2154_neither_condition_counterexample :
  (hasSourceWithCode workdirDiagnostic "shellcheck" "SC2154" = true /\
   getText (recipeDocument "${FOO}") someRange = "${FOO}" /\
   getDefinition workdirHost (recipeDocument "${FOO}")
     (sc2154Position (recipeDocument "${FOO}") someRange) = Resolved [] /\
   message workdirDiagnostic <> "FOO is referenced but not assigned." /\
   ("FOO" ∉ commonDirectoriesVariables workdirHost) /\
   checkIsIgnoredShellcheckSc2154 workdirHost workdirDiagnostic
     (recipeDocument "${FOO}") someRange = Resolved true /\
   published (updateDiagnostics workdirHost (fun _ => 0) shellUri noCollections)
   = [mkSetCall bash recipeUri []]) /\
  (hasSourceWithCode sc2154Diagnostic "shellcheck" "SC2154" = true /\
   getText (recipeDocument "${FOO}") someRange = "${FOO}" /\
   getDefinition pythonRegionHost (recipeDocument "${FOO}")
     (sc2154Position (recipeDocument "${FOO}") someRange) = Resolved [] /\
   ("FOO" ∉ commonDirectoriesVariables pythonRegionHost) /\
   checkIsIgnoredShellcheckSc2154 pythonRegionHost sc2154Diagnostic
     (recipeDocument "${FOO}") someRange = Resolved false /\
   getOriginalDocRange pythonRegionHost (recipeDocument "${FOO}") (recipeDocument "")
     [] (range sc2154Diagnostic) = Some someRange /\
   published (updateDiagnostics pythonRegionHost (fun _ => 0) shellUri noCollections)
   = [mkSetCall bash recipeUri []]) /\
  (hasSourceWithCode sc2154Diagnostic "shellcheck" "SC2154" = true /\
   getText (recipeDocument "${FOO}") someRange = "${FOO}" /\
   getDefinition flakyHost (recipeDocument "${FOO}")
     (sc2154Position (recipeDocument "${FOO}") someRange) = Resolved [] /\
   ("FOO" ∉ commonDirectoriesVariables flakyHost) /\
   checkIsIgnoredShellcheckSc2154 flakyHost sc2154Diagnostic
     (recipeDocument "${FOO}") someRange = Resolved false /\
   getDiagnostics flakyHost shellUri = [sc2154Diagnostic; secondDiagnostic] /\
   mappedTo flakyHost sc2154Context sc2154Diagnostic someRange /\
   sameKindAt flakyHost sc2154Context someRange /\
   checkIsIgnoredDiagnosticOnAnonymousFunctionFirstLine sc2154Diagnostic = Resolved false /\
   updateDiagnosticsTask flakyHost sc2154Context sc2154Diagnostic
   = Resolved (Some (adjustedDiagnostic bash sc2154Diagnostic someRange)) /\
   updateDiagnosticsTask flakyHost sc2154Context secondDiagnostic = Rejected /\
   updateDiagnostics flakyHost (fun _ => 0) shellUri noCollections
   = mkRun Rejected noCollections []).
Proof.
  assert (Hfoo : forall h, commonDirectoriesVariables h = commonDirectoriesVariables workdirHost ->
                           "FOO" ∉ commonDirectoriesVariables h).
  { intros h -> Hin. vm_compute in Hin. discriminate. }
  split; [| split].
  - repeat split; try reflexivity; [discriminate | now apply Hfoo].
  - repeat split; try reflexivity. now apply Hfoo.
  - repeat split; try reflexivity. now apply Hfoo.
Qed.

(** * Further properties of the code *)

(** ** Early returns and rejections of updateDiagnostics *)

Lemma find_none_of {A : Type} (f : A -> bool) (l : list A) :
  (forall x, x ∈ l -> f x = false) -> find f l = None.
Proof.
  induction l as [|a l IH]; intros H; simpl; [reflexivity |].
  rewrite (H a) by left. apply IH. intros x Hx. apply H. now right.
Qed.

Lemma find_some_of {A : Type} (f : A -> bool) (l : list A) (a : A) :
  find f l = Some a -> a ∈ l /\ f a = true.
Proof.
  induction l as [|b l IH]; simpl; [discriminate |].
  destruct (f b) eqn:E.
  - intros [= <-]. split; [left | exact E].
  - intros H. destruct (IH H). split; [now right | assumption].
Qed.

(** X1.  When the embedded-document manager knows no original document
    for the URI, when no open document has the URI of the original
    document, or when the manager has no information about the embedded
    document of the language being processed, [updateDiagnostics] resolves
    without a call of [set]: what the collections held for the original
    document stays. *)
Theorem updateDiagnostics_without_original_document
    (h : Host) (time : nat -> nat) (uri : Uri) (dc : DiagnosticCollections) :
  (getOriginalUri h uri = None \/
   (exists originalUri,
      getOriginalUri h uri = Some originalUri /\
      forall doc, doc ∈ textDocuments h ->
                  toString (doc_uri doc) <> toString originalUri) \/
   (exists t originalUri doc,
      getEmbeddedLanguageType h uri = Some t /\
      getOriginalUri h uri = Some originalUri /\
      find (fun textDocument =>
              String.eqb (toString (doc_uri textDocument)) (toString originalUri))
           (textDocuments h) = Some doc /\
      getEmbeddedLanguageDocInfos h (doc_uri doc) t = None)) ->
  updateDiagnostics h time uri dc = mkRun (Resolved tt) dc [].
Proof.
  intros Hcause. unfold updateDiagnostics, updateDiagnosticsSetup.
  destruct (getEmbeddedLanguageType h uri) as [t|] eqn:Et; [| reflexivity].
  destruct Hcause
    as [Hnone | [(o & Ho & Hclosed) | (t' & o & doc & [= <-] & Ho & Hfind & Hinfo)]].
  - now rewrite Hnone.
  - rewrite Ho, find_none_of; [reflexivity |].
    intros doc Hdoc. apply String.eqb_neq. now apply Hclosed.
  - now rewrite Ho, Hfind, Hinfo.
Qed.

Lemma updateDiagnostics_without_original_document_witness :
  updateDiagnostics closedHost (fun _ => 0) shellUri
    (collectionSet bash recipeUri [sc2154Diagnostic] noCollections)
  = mkRun (Resolved tt) (collectionSet bash recipeUri [sc2154Diagnostic] noCollections) [] /\
  getEmbeddedLanguageDocInfos bashOnlyHost recipeUri bash = Some (mkInfos shellUri []) /\
  updateDiagnostics bashOnlyHost (fun _ => 0) pythonUri
    (collectionSet python recipeUri [docstringDiagnostic] noCollections)
  = mkRun (Resolved tt) (collectionSet python recipeUri [docstringDiagnostic] noCollections) [].
Proof.
  split; [| split; [reflexivity |]].
  - apply updateDiagnostics_without_original_document.
    right; left. exists recipeUri. split; [reflexivity |].
    intros doc Hdoc. now apply elem_of_nil in Hdoc.
  - apply updateDiagnostics_without_original_document.
    right; right. exists python, recipeUri, (recipeDocument "${FOO}").
    repeat split; reflexivity.
Defined.

Lemma promiseAll_rejected {A B : Type} (f : A -> Outcome B) (l : list A) :
  promiseAll (map f l) = Rejected <-> exists a, a ∈ l /\ f a = Rejected.
Proof.
  induction l as [|a l IH]; simpl.
  - split; [discriminate | intros (a & Ha & _); now apply elem_of_nil in Ha].
  - destruct (f a) as [b|] eqn:Ea; simpl.
    + destruct (promiseAll (map f l)) as [bs|] eqn:El; simpl.
      * split; [discriminate |].
        intros (x & Hx & Hr). apply elem_of_cons in Hx as [->|Hx]; [congruence |].
        destruct IH as [_ IH]. discriminate IH. eauto.
      * split; [| reflexivity]. intros _.
        destruct IH as [IH _]. destruct (IH eq_refl) as (x & Hx & Hr).
        exists x. split; [now right | assumption].
    + split; [| reflexivity]. intros _. exists a. split; [left | assumption].
Qed.

Lemma updateDiagnosticsSetup_rejected (h : Host) (uri : Uri) :
  updateDiagnosticsSetup h uri = Rejected <->
  exists t originalUri doc infos,
    getEmbeddedLanguageType h uri = Some t /\
    getOriginalUri h uri = Some originalUri /\
    find (fun textDocument =>
            String.eqb (toString (doc_uri textDocument)) (toString originalUri))
         (textDocuments h) = Some doc /\
    getEmbeddedLanguageDocInfos h (doc_uri doc) t = Some infos /\
    openTextDocument h (fsPath (info_uri infos)) = Rejected.
Proof.
  unfold updateDiagnosticsSetup. split.
  - destruct (getEmbeddedLanguageType h uri) as [t|]; [| discriminate].
    destruct (getOriginalUri h uri) as [o|]; [| discriminate].
    destruct (find _ _) as [doc|] eqn:Ef; [| discriminate].
    destruct (getEmbeddedLanguageDocInfos h _ t) as [infos|] eqn:Ei; [| discriminate].
    destruct (openTextDocument h _) as [edoc|] eqn:Eo; simpl; [discriminate |].
    intros _. now exists t, o, doc, infos.
  - intros (t & o & doc & infos & -> & -> & -> & -> & ->). reflexivity.
Qed.

(** X2.  A call of [updateDiagnostics] rejects exactly when the opening of
    the embedded document rejects, or the task of one of the raw
    diagnostics rejects.  A call that rejects has made no call of [set] and
    leaves the collections as they were, whatever the other tasks found. *)
Theorem updateDiagnostics_rejects
    (h : Host) (time : nat -> nat) (uri : Uri) (dc : DiagnosticCollections) :
  (settled (updateDiagnostics h time uri dc) = Rejected <->
   (exists t originalUri doc infos,
      getEmbeddedLanguageType h uri = Some t /\
      getOriginalUri h uri = Some originalUri /\
      find (fun textDocument =>
              String.eqb (toString (doc_uri textDocument)) (toString originalUri))
           (textDocuments h) = Some doc /\
      getEmbeddedLanguageDocInfos h (doc_uri doc) t = Some infos /\
      openTextDocument h (fsPath (info_uri infos)) = Rejected) \/
   (exists ctx d,
      updateDiagnosticsSetup h uri = Resolved (Some ctx) /\
      d ∈ dirtyDiagnosticsOf h ctx /\
      updateDiagnosticsTask h ctx d = Rejected)) /\
  (settled (updateDiagnostics h time uri dc) = Rejected ->
   updateDiagnostics h time uri dc = mkRun Rejected dc []).
Proof.
  pose proof (updateDiagnosticsSetup_rejected h uri) as Hsetup.
  unfold updateDiagnostics.
  destruct (updateDiagnosticsSetup h uri) as [[ctx|]|] eqn:Es; simpl.
  - pose proof (promiseAll_rejected (updateDiagnosticsTask h ctx)
                  (getDiagnostics h (info_uri (embeddedLanguageDocInfos ctx)))) as Hall.
    destruct (promiseAll _) as [rs|]; simpl.
    + split; [| discriminate]. split; [discriminate |].
      intros [Hrej | (ctx' & d & [= <-] & Hd & Hr)].
      * apply Hsetup in Hrej. discriminate.
      * destruct Hall as [_ Hall]. discriminate Hall. eauto.
    + split; [| reflexivity]. split; [| reflexivity].
      intros _. right. destruct Hall as [Hall _].
      destruct (Hall eq_refl) as (d & Hd & Hr). now exists ctx, d.
  - split; [| discriminate]. split; [discriminate |].
    intros [Hrej | (ctx' & d & [=] & _)]. apply Hsetup in Hrej. discriminate.
  - split; [| reflexivity]. split; [| reflexivity].
    intros _. left. now apply Hsetup.
Qed.

Lemma updateDiagnostics_rejects_witness :
  updateDiagnostics silentHost (fun _ => 0) shellUri noCollections
  = mkRun Rejected noCollections [].
Proof.
  destruct (updateDiagnostics_rejects silentHost (fun _ => 0) shellUri noCollections)
    as [_ Heffect].
  apply Heffect. reflexivity.
Defined.

(** ** When a task rejects *)

Lemma pythonUndefinedVariable_rejected (h : Host) (d : Diagnostic)
    (doc : TextDocument) (r : Range) :
  checkIsIgnoredDiagnosticOnPythonUndefinedVariable h d doc r = Rejected <->
  (hasSourceWithCode d "Flake8" "F821" = true \/
   hasSourceWithCode d "Pylance" "reportUndefinedVariable" = true \/
   hasSourceWithCode d "Pylint" "E0602:undefined-variable" = true) /\
  getDefinition h doc (mkPosition (line (start r)) (character (start r) + 1)) = Rejected.
Proof.
  unfold checkIsIgnoredDiagnosticOnPythonUndefinedVariable.
  destruct (hasSourceWithCode d "Flake8" "F821");
    destruct (hasSourceWithCode d "Pylance" "reportUndefinedVariable");
    destruct (hasSourceWithCode d "Pylint" "E0602:undefined-variable"); simpl;
    try (destruct (getDefinition h doc _); simpl;
         (split; [try discriminate; auto | try reflexivity; intros [_ ?]; discriminate])).
  split; [discriminate | intros [[?|[?|?]] _]; discriminate].
Qed.

Lemma shellcheckSc2154_rejected (h : Host) (d : Diagnostic)
    (doc : TextDocument) (r : Range) :
  checkIsIgnoredShellcheckSc2154 h d doc r = Rejected <->
  hasSourceWithCode d "shellcheck" "SC2154" = true /\
  getDefinition h doc (sc2154Position doc r) = Rejected.
Proof.
  unfold checkIsIgnoredShellcheckSc2154.
  destruct (hasSourceWithCode d "shellcheck" "SC2154"); simpl.
  - destruct (getDefinition h doc _) as [defs|]; simpl.
    + split; [| intros [_ ?]; discriminate].
      destruct (0 <? length defs)%nat; discriminate.
    + now split.
  - split; [discriminate | intros [? _]; discriminate].
Qed.

(** X3.  The task of a raw diagnostic rejects exactly when a query it
    makes rejects: the diagnostic has a supported source and a mapped
    range, and either the question about the language at the end of that
    range rejects, or the language is the one being processed, the two rules
    that ask nothing do not match, and the definition service rejects,
    asked by the rule on undefined Python variables or, that rule not
    matching, by the rule on SC2154. *)
Theorem updateDiagnosticsTask_rejects (h : Host) (ctx : Context) (d : Diagnostic) :
  updateDiagnosticsTask h ctx d = Rejected <->
  checkHasSupportedSource d = true /\
  exists r,
    mappedTo h ctx d r /\
    (getEmbeddedLanguageTypeOnPosition h
       (toString (doc_uri (originalTextDocument ctx))) (end_ r) = Rejected \/
     (sameKindAt h ctx r /\
      checkIsAlwaysIgnoredDiagnostic d = Resolved false /\
      checkIsIgnoredDiagnosticOnAnonymousFunctionFirstLine d = Resolved false /\
      (((hasSourceWithCode d "Flake8" "F821" = true \/
         hasSourceWithCode d "Pylance" "reportUndefinedVariable" = true \/
         hasSourceWithCode d "Pylint" "E0602:undefined-variable" = true) /\
        getDefinition h (originalTextDocument ctx)
          (mkPosition (line (start r)) (character (start r) + 1)) = Rejected) \/
       (checkIsIgnoredDiagnosticOnPythonUndefinedVariable h d
          (originalTextDocument ctx) r = Resolved false /\
        hasSourceWithCode d "shellcheck" "SC2154" = true /\
        getDefinition h (originalTextDocument ctx)
          (sc2154Position (originalTextDocument ctx) r) = Rejected)))).
Proof.
  assert (Hchain : forall r,
            checkIsIgnoredDiagnostic h d (originalTextDocument ctx) r = Rejected <->
            checkIsAlwaysIgnoredDiagnostic d = Resolved false /\
            checkIsIgnoredDiagnosticOnAnonymousFunctionFirstLine d = Resolved false /\
            (checkIsIgnoredDiagnosticOnPythonUndefinedVariable h d
               (originalTextDocument ctx) r = Rejected \/
             (checkIsIgnoredDiagnosticOnPythonUndefinedVariable h d
                (originalTextDocument ctx) r = Resolved false /\
              checkIsIgnoredShellcheckSc2154 h d (originalTextDocument ctx) r = Rejected))).
  { intros r. unfold checkIsIgnoredDiagnostic.
    destruct (checkIsAlwaysIgnoredDiagnostic_resolves d) as [[|] ->]; simpl;
      [split; [discriminate | intros [? _]; discriminate] |].
    destruct (checkIsIgnoredDiagnosticOnAnonymousFunctionFirstLine_resolves d) as [[|] ->];
      simpl; [split; [discriminate | intros (_ & ? & _); discriminate] |].
    destruct (checkIsIgnoredDiagnosticOnPythonUndefinedVariable _ _ _ _) as [[|]|]; simpl.
    - split; [discriminate | intros (_ & _ & [?|[? _]]); discriminate].
    - destruct (checkIsIgnoredShellcheckSc2154 _ _ _ _) as [[|]|]; simpl.
      + split; [discriminate | intros (_ & _ & [?|[_ ?]]); discriminate].
      + split; [discriminate | intros (_ & _ & [?|[_ ?]]); discriminate].
      + split; [intros _ | reflexivity]. repeat split; auto.
    - split; [intros _ | reflexivity]. repeat split; auto. }
  unfold updateDiagnosticsTask, mappedTo, sameKindAt. split.
  - destruct (checkHasSupportedSource d); simpl; [| discriminate].
    destruct (getOriginalDocRange _ _ _ _ _) as [r|]; simpl; [| discriminate].
    destruct (getEmbeddedLanguageTypeOnPosition _ _ _) as [k|] eqn:Ek; simpl.
    + destruct (bool_decide_reflect (Some (embeddedLanguageType ctx) = k)) as [Hk|Hk];
        simpl; [| discriminate].
      destruct (checkIsIgnoredDiagnostic h d (originalTextDocument ctx) r)
        as [[|]|] eqn:Ec; simpl; try discriminate.
      intros _. split; [reflexivity |]. exists r. split; [reflexivity |]. right.
      subst k. split; [exact Ek |].
      apply Hchain in Ec as (Ha & Hb & Hrest). split; [exact Ha |]. split; [exact Hb |].
      destruct Hrest as [Hp | [Hp Hs]].
      * left. now apply pythonUndefinedVariable_rejected.
      * right. split; [exact Hp |]. now apply shellcheckSc2154_rejected.
    + intros _. split; [reflexivity |]. exists r. split; [reflexivity |]. now left.
  - intros (Hs & r & Hm & Hcase). rewrite Hs, Hm. simpl.
    destruct Hcase as [Hk | (Hk & Ha & Hb & Hrest)].
    + now rewrite Hk.
    + rewrite Hk. simpl. rewrite bool_decide_true by reflexivity. simpl.
      assert (Hc : checkIsIgnoredDiagnostic h d (originalTextDocument ctx) r = Rejected).
      { apply Hchain. split; [exact Ha |]. split; [exact Hb |].
        destruct Hrest as [Hp | (Hp & Hsc & Hdef)].
        - left. now apply pythonUndefinedVariable_rejected.
        - right. split; [exact Hp |]. now apply shellcheckSc2154_rejected. }
      now rewrite Hc.
Qed.

(** ** The call of set *)

Lemma updateDiagnosticsSetup_document (h : Host) (uri : Uri) (ctx : Context) :
  updateDiagnosticsSetup h uri = Resolved (Some ctx) ->
  exists originalUri,
    getOriginalUri h uri = Some originalUri /\
    originalTextDocument ctx ∈ textDocuments h /\
    toString (doc_uri (originalTextDocument ctx)) = toString originalUri /\
    getEmbeddedLanguageDocInfos h (doc_uri (originalTextDocument ctx))
      (embeddedLanguageType ctx) = Some (embeddedLanguageDocInfos ctx) /\
    openTextDocument h (fsPath (info_uri (embeddedLanguageDocInfos ctx)))
    = Resolved (embeddedLanguageDoc ctx).
Proof.
  unfold updateDiagnosticsSetup.
  destruct (getEmbeddedLanguageType h uri) as [t|]; [| discriminate].
  destruct (getOriginalUri h uri) as [o|]; [| discriminate].
  destruct (find _ _) as [doc|] eqn:Ef; [| discriminate].
  destruct (getEmbeddedLanguageDocInfos h _ t) as [infos|] eqn:Ei; [| discriminate].
  destruct (openTextDocument h _) as [edoc|] eqn:Eo; simpl; [| discriminate].
  intros [= <-]. simpl. exists o. apply find_some_of in Ef as [Hin Heq].
  apply String.eqb_eq in Heq. repeat split; assumption.
Qed.

Lemma length_omap_le {A B : Type} (f : A -> option B) (l : list A) :
  length (omap f l) <= length l.
Proof.
  induction l as [|a l IH]; simpl; [lia |].
  destruct (f a); simpl; [apply le_n_S | apply le_S]; exact IH.
Qed.

(** X4.  A call of [updateDiagnostics] calls [set] at most once, and then
    resolves.  The URI it sets is that of an open document, the one whose
    URI reads as the original URI the manager gave for the embedded
    document, and no more diagnostics are set than the embedded document
    had. *)
Theorem updateDiagnostics_single_set
    (h : Host) (time : nat -> nat) (uri : Uri) (dc : DiagnosticCollections)
    (call : SetCall) :
  call ∈ published (updateDiagnostics h time uri dc) ->
  published (updateDiagnostics h time uri dc) = [call] /\
  settled (updateDiagnostics h time uri dc) = Resolved tt /\
  exists ctx originalUri,
    updateDiagnosticsSetup h uri = Resolved (Some ctx) /\
    getOriginalUri h uri = Some originalUri /\
    originalTextDocument ctx ∈ textDocuments h /\
    target call = doc_uri (originalTextDocument ctx) /\
    toString (target call) = toString originalUri /\
    length (diagnostics call) <= length (dirtyDiagnosticsOf h ctx).
Proof.
  intros Hcall.
  destruct (updateDiagnostics_published _ _ _ _ _ Hcall)
    as (ctx & Hsetup & Hone & _ & Htarget & Hperm & _).
  split; [exact Hone |]. split.
  - revert Hcall. unfold updateDiagnostics. rewrite Hsetup.
    destruct (promiseAll _); simpl; [reflexivity |].
    intros H. now apply elem_of_nil in H.
  - destruct (updateDiagnosticsSetup_document h uri ctx Hsetup)
      as (o & Ho & Hopen & Hstr & _).
    exists ctx, o. rewrite Htarget. repeat split; try assumption.
    rewrite Hperm. apply length_omap_le.
Qed.

Lemma updateDiagnostics_single_set_witness :
  published (updateDiagnostics sc2154Host (fun _ => 0) shellUri noCollections) = [sc2154Call] /\
  settled (updateDiagnostics sc2154Host (fun _ => 0) shellUri noCollections) = Resolved tt.
Proof.
  assert (Hcall : sc2154Call ∈
            published (updateDiagnostics sc2154Host (fun _ => 0) shellUri noCollections))
    by (vm_compute; left).
  destruct (updateDiagnostics_single_set _ _ _ _ _ Hcall) as (Hone & Hsettled & _).
  split; assumption.
Defined.

Lemma collectionOf_set_same (t : EmbeddedLanguageType) (uri : Uri) (ds : list Diagnostic)
    (dc : DiagnosticCollections) :
  collectionOf t (collectionSet t uri ds dc) = <[toString uri := ds]> (collectionOf t dc).
Proof. now destruct t. Qed.

Lemma collectionOf_set_other (t : EmbeddedLanguageType) (uri : Uri) (ds : list Diagnostic)
    (dc : DiagnosticCollections) :
  collectionOf (otherLanguage t) (collectionSet t uri ds dc) = collectionOf (otherLanguage t) dc.
Proof. now destruct t. Qed.

Lemma updateDiagnostics_collections (h : Host) (time : nat -> nat) (uri : Uri)
    (dc : DiagnosticCollections) (call : SetCall) :
  call ∈ published (updateDiagnostics h time uri dc) ->
  collections (updateDiagnostics h time uri dc)
  = collectionSet (channel call) (target call) (diagnostics call) dc.
Proof.
  unfold updateDiagnostics.
  destruct (updateDiagnosticsSetup h uri) as [[ctx|]|]; simpl;
    try (intros H; now apply elem_of_nil in H).
  destruct (promiseAll _) as [rs|]; simpl;
    try (intros H; now apply elem_of_nil in H).
  intros H. apply list_elem_of_singleton in H. now subst call.
Qed.

(** X5.  After a call that published, the collection of the language holds
    for the original document exactly the diagnostics that were set,
    whatever it held before; its entries for other documents are as they
    were, and so is the whole collection of the other language. *)
Theorem updateDiagnostics_replaces_one_entry
    (h : Host) (time : nat -> nat) (uri : Uri) (dc : DiagnosticCollections)
    (call : SetCall) :
  call ∈ published (updateDiagnostics h time uri dc) ->
  collectionOf (channel call) (collections (updateDiagnostics h time uri dc))
    !! toString (target call) = Some (diagnostics call) /\
  (forall key, key <> toString (target call) ->
     collectionOf (channel call) (collections (updateDiagnostics h time uri dc)) !! key
     = collectionOf (channel call) dc !! key) /\
  collectionOf (otherLanguage (channel call)) (collections (updateDiagnostics h time uri dc))
  = collectionOf (otherLanguage (channel call)) dc.
Proof.
  intros Hcall. rewrite (updateDiagnostics_collections _ _ _ _ _ Hcall).
  rewrite collectionOf_set_same, collectionOf_set_other.
  split; [apply lookup_insert_eq |]. split; [| reflexivity].
  intros key Hkey. now apply lookup_insert_ne.
Qed.

Lemma updateDiagnostics_replaces_one_entry_witness :
  collectionOf bash
    (collections (updateDiagnostics sc2154Host (fun _ => 0) shellUri
                    (collectionSet bash recipeUri [] noCollections)))
    !! "file:///work/recipe.bb"
  = Some [adjustedDiagnostic bash sc2154Diagnostic someRange].
Proof.
  assert (Hcall : sc2154Call ∈
            published (updateDiagnostics sc2154Host (fun _ => 0) shellUri
                         (collectionSet bash recipeUri [] noCollections)))
    by (vm_compute; left).
  destruct (updateDiagnostics_replaces_one_entry _ _ _ _ _ Hcall) as (Hentry & _).
  exact Hentry.
Defined.

(** X6.  When the embedded document has no diagnostics, or every task
    ends in an early return, [updateDiagnostics] still calls [set], with
    the empty list: what the collection held for the original document is
    cleared. *)
Theorem updateDiagnostics_clears_entry
    (h : Host) (time : nat -> nat) (uri : Uri) (dc : DiagnosticCollections) (ctx : Context) :
  updateDiagnosticsSetup h uri = Resolved (Some ctx) ->
  (forall d, d ∈ dirtyDiagnosticsOf h ctx -> updateDiagnosticsTask h ctx d = Resolved None) ->
  published (updateDiagnostics h time uri dc)
  = [mkSetCall (embeddedLanguageType ctx) (doc_uri (originalTextDocument ctx)) []] /\
  collectionOf (embeddedLanguageType ctx) (collections (updateDiagnostics h time uri dc))
    !! toString (doc_uri (originalTextDocument ctx)) = Some [].
Proof.
  intros Hsetup Hnone.
  assert (Hall : promiseAll (map (updateDiagnosticsTask h ctx) (dirtyDiagnosticsOf h ctx))
                 = Resolved (map (fun _ => None) (dirtyDiagnosticsOf h ctx))).
  { induction (dirtyDiagnosticsOf h ctx) as [|d l IH]; simpl; [reflexivity |].
    rewrite (Hnone d) by left. simpl.
    rewrite IH; [reflexivity |]. intros d' Hd'. apply Hnone. now right. }
  assert (Hclean : forall l : list Diagnostic,
            cleanDiagnosticsOf time (map (fun _ => None) l) = []).
  { intros l.
    assert (E : omap id (map (fun _ : Diagnostic => @None Diagnostic) l) = [])
      by (induction l as [|a l IH]; simpl; [reflexivity | exact IH]).
    apply Permutation_nil_r. unfold cleanDiagnosticsOf.
    etransitivity; [apply omap_perm, completionOrder_perm | now rewrite E]. }
  unfold updateDiagnostics. rewrite Hsetup.
  unfold dirtyDiagnosticsOf in Hall. rewrite Hall. simpl. rewrite Hclean.
  split; [reflexivity |].
  rewrite collectionOf_set_same. apply lookup_insert_eq.
Qed.

Lemma updateDiagnostics_clears_entry_witness :
  published (updateDiagnostics (pythonHost [docstringDiagnosticLong; eslintDiagnostic])
               (fun _ => 0) pythonUri
               (collectionSet python recipeUri [docstringDiagnostic] noCollections))
  = [mkSetCall python recipeUri []].
Proof.
  destruct (updateDiagnostics_clears_entry
              (pythonHost [docstringDiagnosticLong; eslintDiagnostic]) (fun _ => 0) pythonUri
              (collectionSet python recipeUri [docstringDiagnostic] noCollections)
              pythonContext eq_refl) as [Hpub _].
  - intros d Hd.
    apply elem_of_cons in Hd as [->|Hd]; [reflexivity |].
    apply elem_of_cons in Hd as [->|Hd]; [reflexivity |].
    now apply elem_of_nil in Hd.
  - exact Hpub.
Defined.

(** ** The source of a published diagnostic *)

Lemma includes_append (s t name : string) :
  JsString.includes s name = true -> JsString.includes (s ++ t) name = true.
Proof.
  rewrite !includes_spec. intros (a & b & ->). exists a, (b ++ t).
  now rewrite !append_assoc.
Qed.

(** X7.  The source of every published diagnostic is the source of the raw
    diagnostic followed by a comma, a space and the name of the collection,
    "bitbake-bash" or "bitbake-python"; the raw diagnostic always has a
    source, so that the text "undefined" never stands in its place, and the
    new source still contains the name of a supported tool. *)
Theorem published_source
    (h : Host) (time : nat -> nat) (uri : Uri) (dc : DiagnosticCollections)
    (call : SetCall) (d' : Diagnostic) :
  call ∈ published (updateDiagnostics h time uri dc) ->
  d' ∈ diagnostics call ->
  exists ctx d s,
    updateDiagnosticsSetup h uri = Resolved (Some ctx) /\
    d ∈ dirtyDiagnosticsOf h ctx /\
    source d = Some s /\
    source d' = Some (s ++ ", " ++ collectionName (channel call)) /\
    (collectionName (channel call) = "bitbake-bash" \/
     collectionName (channel call) = "bitbake-python") /\
    checkHasSupportedSource d' = true.
Proof.
  intros Hcall Hd'.
  destruct (updateDiagnostics_published _ _ _ _ _ Hcall)
    as (ctx & Hsetup & _ & Hchannel & _ & Hperm & _).
  rewrite Hperm in Hd'. apply elem_of_omap_yield in Hd' as (d & Hd & Hy).
  apply updateDiagnosticsTask_Some in Hy as (Hs & r & _ & _ & _ & ->).
  assert (Hsrc : exists s, source d = Some s).
  { unfold checkHasSupportedSource in Hs. destruct (source d) as [s|]; [eauto |].
    simpl in Hs. discriminate. }
  destruct Hsrc as [s Hsrc].
  exists ctx, d, s. rewrite Hchannel. repeat split; try assumption.
  - simpl. unfold adjustedSource. now rewrite Hsrc.
  - destruct (embeddedLanguageType ctx); [now right | now left].
  - unfold checkHasSupportedSource in *. cbn [source adjustedDiagnostic].
    unfold adjustedSource. rewrite Hsrc in *. apply existsb_exists in Hs as (name & Hname & Hinc).
    apply existsb_exists. exists name. split; [exact Hname |].
    now apply includes_append.
Qed.

Lemma published_source_witness :
  exists s,
    source sc2154Diagnostic = Some s /\
    source (adjustedDiagnostic bash sc2154Diagnostic someRange)
    = Some (s ++ ", bitbake-bash").
Proof.
  assert (Hcall : sc2154Call ∈
            published (updateDiagnostics sc2154Host (fun _ => 0) shellUri noCollections))
    by (vm_compute; left).
  assert (Hin : adjustedDiagnostic bash sc2154Diagnostic someRange ∈ diagnostics sc2154Call)
    by left.
  destruct (published_source _ _ _ _ _ _ Hcall Hin)
    as (ctx & d & s & Hsetup & Hd & Hs & Hs' & _).
  injection Hsetup as <-.
  apply list_elem_of_singleton in Hd. subst d.
  exists s. split; [exact Hs | exact Hs'].
Defined.

(** ** The import-warning fixer on the messages it was written for *)

Lemma dropPrefix_append (p s : string) : JsString.dropPrefix p (p ++ s) = Some s.
Proof. now apply dropPrefix_spec. Qed.

(** What [fix] returns once the pattern has matched: the clause
    [lead ++ digits ++ trail] was found after [pre], with [tail] behind. *)
Lemma fix_after_match (d : Diagnostic) (regex : RegExp.t)
    (pre lead digits trail tail : string) (idx last p1 p2 p3 p4 : nat) :
  message d = pre ++ (lead ++ digits ++ trail) ++ tail ->
  RegExp.exec regex (message d)
  = Some (RegExp.mkMatch idx last [("textToRemove", (p1, p2)); ("lineNumber", (p3, p4))]) ->
  p1 = String.length pre ->
  p2 = String.length pre + String.length (lead ++ digits ++ trail) ->
  p3 = String.length pre + String.length lead ->
  p4 = String.length pre + String.length lead + String.length digits ->
  fix_ d regex
  = if (JsString.Number digits <=? 7)%N
    then JsString.slice0 (message d) (String.length pre + String.length tail)
         ++ " (imported by BitBake)"
    else message d.
Proof.
  intros Hmsg Hexec -> -> -> ->. unfold fix_. rewrite Hexec.
  unfold RegExp.group. cbn [RegExp.captures RegExp.lookupGroup].
  replace ("textToRemove" =? "lineNumber")%string with false by reflexivity.
  replace ("lineNumber" =? "lineNumber")%string with true by reflexivity.
  replace ("textToRemove" =? "textToRemove")%string with true by reflexivity.
  assert (Hln : JsString.slice (message d) (String.length pre + String.length lead)
                  (String.length pre + String.length lead + String.length digits) = digits).
  { rewrite Hmsg.
    replace (pre ++ (lead ++ digits ++ trail) ++ tail)
      with ((pre ++ lead) ++ digits ++ (trail ++ tail))
      by now rewrite !append_assoc.
    rewrite <- length_append. apply slice_middle. }
  assert (Htr : JsString.slice (message d) (String.length pre)
                  (String.length pre + String.length (lead ++ digits ++ trail))
                = lead ++ digits ++ trail).
  { rewrite Hmsg. apply slice_middle. }
  rewrite Hln, Htr.
  destruct (JsString.Number digits <=? 7)%N; [| reflexivity].
  do 2 f_equal. rewrite Hmsg, !length_append. lia.
Qed.

Section Fixer.
Context (d : Diagnostic) (name digits tail : string).
Hypothesis Hname : isIdentifier name = true.
Hypothesis Hdigits : digits <> "".
Hypothesis Hall : allIn JsString.isDigit digits = true.

Local Ltac run_pattern :=
  unfold RegExp.exec; apply searchFrom_here;
  unfold RegExp.matchAt, redefinitionRegex, reimportRegex, redefiningRegex;
  cbn [RegExp.seq RegExp.run];
  rewrite dropPrefix_append;
  apply plus_greedy;
    [ now apply isIdentifier_spec in Hname
    | now apply isIdentifier_spec in Hname
    | reflexivity
    | ];
  simpl JsString.dropPrefix; cbn beta iota.

(** X8.  For a Flake8 F811 diagnostic whose message starts with
    "redefinition of unused '[name]' from line [digits]", the fixer leaves
    the message as it is when the line number is above 7; otherwise it
    returns the message cut by the length of the clause " from line
    [digits]", with " (imported by BitBake)" appended.  The cut is taken
    at the end of the message: when nothing follows the line number the
    result is "redefinition of unused '[name]' (imported by BitBake)". *)
Theorem fix_redefinition_of_unused :
  hasSourceWithCode d "Flake8" "F811" = true ->
  stopsAt JsString.isDigit tail = true ->
  message d = ("redefinition of unused '" ++ name ++ "'") ++ (" from line " ++ digits) ++ tail ->
  fixDiagnosticMessagePythonImport d
  = (if (JsString.Number digits <=? 7)%N
     then JsString.slice0 (message d)
            (String.length ("redefinition of unused '" ++ name ++ "'") + String.length tail)
          ++ " (imported by BitBake)"
     else message d) /\
  (tail = "" -> (JsString.Number digits <=? 7)%N = true ->
   fixDiagnosticMessagePythonImport d
   = "redefinition of unused '" ++ name ++ "' (imported by BitBake)").
Proof.
  intros Hcode Htail Hmsg.
  assert (Hfix : fixDiagnosticMessagePythonImport d
                 = if (JsString.Number digits <=? 7)%N
                   then JsString.slice0 (message d)
                          (String.length ("redefinition of unused '" ++ name ++ "'")
                           + String.length tail)
                        ++ " (imported by BitBake)"
                   else message d).
  { unfold fixDiagnosticMessagePythonImport. rewrite Hcode.
    eapply (fix_after_match d redefinitionRegex ("redefinition of unused '" ++ name ++ "'")
              " from line " digits "" tail).
    - now rewrite append_nil_r.
    - rewrite Hmsg, !append_assoc. run_pattern.
      apply plus_greedy; [assumption | assumption | assumption | reflexivity].
    - rewrite !length_append. simpl. lia.
    - rewrite !length_append. simpl. lia.
    - rewrite !length_append. simpl. lia.
    - rewrite !length_append. simpl. lia. }
  split; [exact Hfix |].
  intros -> Hle. rewrite Hfix, Hle, Hmsg. unfold JsString.slice0.
  rewrite Nat.add_0_r, substring_0_append, !append_assoc. reflexivity.
Qed.

(** X9.  For a Pylint W0404 diagnostic whose message starts with
    "Reimport '[name]' (imported line [digits])", the fixer leaves the
    message as it is when the line number is above 7; otherwise it cuts the
    message by the length of the clause and appends " (imported by
    BitBake)", which gives "Reimport '[name]' (imported by BitBake)" when
    nothing follows the clause. *)
Theorem fix_reimport :
  hasSourceWithCode d "Pylint" "W0404:reimported" = true ->
  message d = ("Reimport '" ++ name ++ "'") ++ (" (imported line " ++ digits ++ ")") ++ tail ->
  fixDiagnosticMessagePythonImport d
  = (if (JsString.Number digits <=? 7)%N
     then JsString.slice0 (message d)
            (String.length ("Reimport '" ++ name ++ "'") + String.length tail)
          ++ " (imported by BitBake)"
     else message d) /\
  (tail = "" -> (JsString.Number digits <=? 7)%N = true ->
   fixDiagnosticMessagePythonImport d = "Reimport '" ++ name ++ "' (imported by BitBake)").
Proof.
  intros Hcode Hmsg.
  assert (Hfix : fixDiagnosticMessagePythonImport d
                 = if (JsString.Number digits <=? 7)%N
                   then JsString.slice0 (message d)
                          (String.length ("Reimport '" ++ name ++ "'") + String.length tail)
                        ++ " (imported by BitBake)"
                   else message d).
  { unfold fixDiagnosticMessagePythonImport.
    rewrite (hasSourceWithCode_other_code d _ _ "Flake8" "F811" Hcode) by discriminate.
    rewrite Hcode.
    eapply (fix_after_match d reimportRegex ("Reimport '" ++ name ++ "'")
              " (imported line " digits ")" tail).
    - exact Hmsg.
    - rewrite Hmsg, !append_assoc. run_pattern.
      apply plus_greedy; [assumption | assumption | reflexivity |].
      simpl JsString.dropPrefix. cbn beta iota. reflexivity.
    - rewrite !length_append. simpl. lia.
    - rewrite !length_append. simpl. lia.
    - rewrite !length_append. simpl. lia.
    - rewrite !length_append. simpl. lia. }
  split; [exact Hfix |].
  intros -> Hle. rewrite Hfix, Hle, Hmsg. unfold JsString.slice0.
  rewrite Nat.add_0_r, append_nil_r, substring_0_append, !append_assoc. reflexivity.
Qed.

(** X10.  For a Pylint W0621 diagnostic whose message starts with
    "Redefining name '[name]' from outer scope (line [digits])", the fixer
    leaves the message as it is when the line number is above 7; otherwise
    it cuts the message by the length of the clause and appends
    " (imported by BitBake)", which gives
    "Redefining name '[name]' (imported by BitBake)" when nothing follows
    the clause. *)
Theorem fix_redefining_name :
  hasSourceWithCode d "Pylint" "W0621:redefined-outer-name" = true ->
  message d
  = ("Redefining name '" ++ name ++ "'") ++ (" from outer scope (line " ++ digits ++ ")") ++ tail ->
  fixDiagnosticMessagePythonImport d
  = (if (JsString.Number digits <=? 7)%N
     then JsString.slice0 (message d)
            (String.length ("Redefining name '" ++ name ++ "'") + String.length tail)
          ++ " (imported by BitBake)"
     else message d) /\
  (tail = "" -> (JsString.Number digits <=? 7)%N = true ->
   fixDiagnosticMessagePythonImport d
   = "Redefining name '" ++ name ++ "' (imported by BitBake)").
Proof.
  intros Hcode Hmsg.
  assert (Hfix : fixDiagnosticMessagePythonImport d
                 = if (JsString.Number digits <=? 7)%N
                   then JsString.slice0 (message d)
                          (String.length ("Redefining name '" ++ name ++ "'")
                           + String.length tail)
                        ++ " (imported by BitBake)"
                   else message d).
  { unfold fixDiagnosticMessagePythonImport.
    rewrite (hasSourceWithCode_other_code d _ _ "Flake8" "F811" Hcode) by discriminate.
    rewrite (hasSourceWithCode_other_code d _ _ "Pylint" "W0404:reimported" Hcode)
      by discriminate.
    rewrite Hcode.
    eapply (fix_after_match d redefiningRegex ("Redefining name '" ++ name ++ "'")
              " from outer scope (line " digits ")" tail).
    - exact Hmsg.
    - rewrite Hmsg, !append_assoc. run_pattern.
      apply plus_greedy; [assumption | assumption | reflexivity |].
      simpl JsString.dropPrefix. cbn beta iota. reflexivity.
    - rewrite !length_append. simpl. lia.
    - rewrite !length_append. simpl. lia.
    - rewrite !length_append. simpl. lia.
    - rewrite !length_append. simpl. lia. }
  split; [exact Hfix |].
  intros -> Hle. rewrite Hfix, Hle, Hmsg. unfold JsString.slice0.
  rewrite Nat.add_0_r, append_nil_r, substring_0_append, !append_assoc. reflexivity.
Qed.

End Fixer.

Lemma fix_redefinition_of_unused_witness :
  fixDiagnosticMessagePythonImport
    (f811Diagnostic "redefinition of unused 'os' from line 007 (again)")
  = "redefinition of unused 'os' from li (imported by BitBake)" /\
  fixDiagnosticMessagePythonImport (f811Diagnostic "redefinition of unused 'os' from line 12")
  = "redefinition of unused 'os' from line 12".
Proof.
  split.
  - destruct (fix_redefinition_of_unused
                (f811Diagnostic "redefinition of unused 'os' from line 007 (again)")
                "os" "007" " (again)" eq_refl ltac:(discriminate) eq_refl
                eq_refl eq_refl eq_refl) as [Hfix _].
    exact Hfix.
  - destruct (fix_redefinition_of_unused
                (f811Diagnostic "redefinition of unused 'os' from line 12")
                "os" "12" "" eq_refl ltac:(discriminate) eq_refl
                eq_refl eq_refl eq_refl) as [Hfix _].
    exact Hfix.
Defined.

Lemma fix_reimport_witness :
  fixDiagnosticMessagePythonImport
    (plainDiagnostic (Some "Pylint") (CodePlain (CodeString "W0404:reimported"))
       "Reimport 'bb' (imported line 4)")
  = "Reimport 'bb' (imported by BitBake)".
Proof.
  destruct (fix_reimport
              (plainDiagnostic (Some "Pylint") (CodePlain (CodeString "W0404:reimported"))
                 "Reimport 'bb' (imported line 4)")
              "bb" "4" "" eq_refl ltac:(discriminate) eq_refl eq_refl eq_refl) as [_ Hfix].
  now apply Hfix.
Defined.

Lemma fix_redefining_name_witness :
  fixDiagnosticMessagePythonImport
    (plainDiagnostic (Some "Pylint") (CodePlain (CodeString "W0621:redefined-outer-name"))
       "Redefining name 'd' from outer scope (line 5)")
  = "Redefining name 'd' (imported by BitBake)".
Proof.
  destruct (fix_redefining_name
              (plainDiagnostic (Some "Pylint")
                 (CodePlain (CodeString "W0621:redefined-outer-name"))
                 "Redefining name 'd' from outer scope (line 5)")
              "d" "5" "" eq_refl ltac:(discriminate) eq_refl eq_refl eq_refl) as [_ Hfix].
  now apply Hfix.
Defined.

(** ** The rule on undefined Python variables *)

(** X11.  For a diagnostic with one of the codes Flake8 F821, Pylance
    reportUndefinedVariable or Pylint E0602:undefined-variable, the
    definition service is asked one character to the right of the start of
    the mapped range.  With at least one definition the rule matches, the
    chain answers ignore and nothing is published for the diagnostic; with
    none the rule does not match. *)
Theorem python_undefined_variable_rule
    (h : Host) (ctx : Context) (d : Diagnostic) (r : Range) (defs : list Location) :
  hasSourceWithCode d "Flake8" "F821" = true \/
  hasSourceWithCode d "Pylance" "reportUndefinedVariable" = true \/
  hasSourceWithCode d "Pylint" "E0602:undefined-variable" = true ->
  getDefinition h (originalTextDocument ctx)
    (mkPosition (line (start r)) (character (start r) + 1)) = Resolved defs ->
  (defs <> [] ->
   checkIsIgnoredDiagnosticOnPythonUndefinedVariable h d (originalTextDocument ctx) r
   = Resolved true /\
   checkIsIgnoredDiagnostic h d (originalTextDocument ctx) r = Resolved true /\
   (mappedTo h ctx d r -> taskYield h ctx d = None)) /\
  (defs = [] ->
   checkIsIgnoredDiagnosticOnPythonUndefinedVariable h d (originalTextDocument ctx) r
   = Resolved false).
Proof.
  intros Hcode Hdefs.
  assert (Hrule : checkIsIgnoredDiagnosticOnPythonUndefinedVariable h d
                    (originalTextDocument ctx) r
                  = Resolved (0 <? length defs)%nat).
  { unfold checkIsIgnoredDiagnosticOnPythonUndefinedVariable.
    replace (negb (hasSourceWithCode d "Flake8" "F821")
             && negb (hasSourceWithCode d "Pylance" "reportUndefinedVariable")
             && negb (hasSourceWithCode d "Pylint" "E0602:undefined-variable"))
      with false.
    - now rewrite Hdefs.
    - destruct Hcode as [-> | [-> | ->]]; simpl;
        now rewrite ?andb_false_r. }
  split.
  - intros Hne.
    assert (Htrue : checkIsIgnoredDiagnosticOnPythonUndefinedVariable h d
                      (originalTextDocument ctx) r = Resolved true)
      by (rewrite Hrule; now destruct defs).
    assert (Hchain : checkIsIgnoredDiagnostic h d (originalTextDocument ctx) r
                     = Resolved true).
    { unfold checkIsIgnoredDiagnostic.
      destruct (checkIsAlwaysIgnoredDiagnostic_resolves d) as [[|] ->]; simpl;
        [reflexivity |].
      destruct (checkIsIgnoredDiagnosticOnAnonymousFunctionFirstLine_resolves d)
        as [[|] ->]; simpl; [reflexivity |].
      now rewrite Htrue. }
    repeat split; try assumption.
    intros Hm. now apply (taskYield_ignored_at h ctx d r).
  - intros ->. exact Hrule.
Qed.

Lemma python_undefined_variable_rule_witness :
  checkIsIgnoredDiagnostic
    (recipeHost "d.getVar('S')" [undefinedNameDiagnostic] (Some python)
       [mkLocation recipeUri someRange])
    undefinedNameDiagnostic (recipeDocument "d.getVar('S')") someRange
  = Resolved true.
Proof.
  destruct (python_undefined_variable_rule
              (recipeHost "d.getVar('S')" [undefinedNameDiagnostic] (Some python)
                 [mkLocation recipeUri someRange])
              (mkContext python (recipeDocument "d.getVar('S')") (mkInfos pythonUri [])
                 (recipeDocument ""))
              undefinedNameDiagnostic someRange [mkLocation recipeUri someRange]
              (or_introl eq_refl) eq_refl) as [Hsome _].
  destruct (Hsome ltac:(discriminate)) as (_ & Hchain & _).
  exact Hchain.
Defined.

(** ** The position the SC2154 rule asks about *)

Lemma searchFrom_word_skip (pre s : string) (pos : nat) :
  allIn notWord pre = true ->
  RegExp.searchFrom wordRegex pos (pre ++ s)
  = RegExp.searchFrom wordRegex (pos + String.length pre) s.
Proof.
  revert pos. induction pre as [|c pre IH]; intros pos Hpre; simpl.
  - now rewrite Nat.add_0_r.
  - simpl in Hpre. apply andb_true_iff in Hpre as [Hc Hpre].
    unfold RegExp.matchAt, wordRegex. cbn [RegExp.run RegExp.plus].
    unfold notWord in Hc. apply negb_true_iff in Hc. rewrite Hc.
    fold wordRegex. rewrite (IH (S pos) Hpre). f_equal. lia.
Qed.

Lemma matchAt_word_index (s : string) (pos : nat) (m : RegExp.Match) :
  RegExp.matchAt wordRegex pos s = Some m -> RegExp.index m = pos.
Proof.
  unfold RegExp.matchAt, wordRegex. cbn [RegExp.run]. intros H.
  apply plus_inv in H as (v & rest & _ & _ & _ & [= <-]). reflexivity.
Qed.

(** X12.  The position at which the SC2154 rule asks for a definition.
    When the text of the mapped range starts with a word character, or
    holds no word character at all, it is the end of the range.  When the
    text starts with other characters, followed by a name, it is on the
    line of the end of the range, at the column of the start of the range
    moved right by the length of those characters and of the name. *)
Theorem sc2154Position_cases (doc : TextDocument) (r : Range) :
  (forall c rest,
     getText doc r = String c rest -> JsString.isWord c = true ->
     sc2154Position doc r = end_ r) /\
  (allIn notWord (getText doc r) = true -> sc2154Position doc r = end_ r) /\
  (forall pre v rest,
     getText doc r = pre ++ v ++ rest ->
     pre <> "" -> allIn notWord pre = true ->
     isIdentifier v = true -> stopsAt JsString.isWord rest = true ->
     sc2154Position doc r
     = mkPosition (line (end_ r))
         (character (start r) + String.length pre + String.length v)).
Proof.
  unfold sc2154Position. split; [| split].
  - intros c rest -> Hc. unfold RegExp.exec. cbn [RegExp.searchFrom].
    destruct (RegExp.matchAt wordRegex 0 (String c rest)) as [m|] eqn:Em.
    + apply matchAt_word_index in Em. now rewrite Em.
    + exfalso. revert Em. unfold RegExp.matchAt, wordRegex.
      cbn [RegExp.run RegExp.plus]. rewrite Hc. now destruct (RegExp.plus _ _ _ _).
  - intros Hnone. unfold RegExp.exec.
    rewrite <- (append_nil_r (getText doc r)), (searchFrom_word_skip _ "" 0 Hnone).
    reflexivity.
  - intros pre v rest -> Hpre Hall Hv Hrest. unfold RegExp.exec.
    rewrite (searchFrom_word_skip pre (v ++ rest) 0 Hall).
    apply isIdentifier_spec in Hv as [Hne Hword].
    rewrite (searchFrom_here wordRegex _ _
               (RegExp.mkMatch (0 + String.length pre)
                  (0 + String.length pre + String.length v) [])).
    + cbn [RegExp.index RegExp.lastIndex Nat.add].
      destruct pre as [|c pre]; [contradiction |].
      cbn [String.length Nat.eqb]. unfold RegExp.matched.
      cbn [RegExp.index RegExp.lastIndex].
      change (S (String.length pre)) with (String.length (String c pre)).
      now rewrite slice_middle.
    + unfold RegExp.matchAt, wordRegex. cbn [RegExp.run].
      now apply plus_greedy.
Qed.

Lemma sc2154Position_cases_witness :
  sc2154Position (recipeDocument "FOO") someRange = mkPosition 4 16 /\
  sc2154Position (recipeDocument "${ }") someRange = mkPosition 4 16 /\
  sc2154Position (recipeDocument "${FOO:-/tmp}") someRange = mkPosition 4 15.
Proof.
  destruct (sc2154Position_cases (recipeDocument "FOO") someRange) as (Hword & _ & _).
  destruct (sc2154Position_cases (recipeDocument "${ }") someRange) as (_ & Hnone & _).
  destruct (sc2154Position_cases (recipeDocument "${FOO:-/tmp}") someRange)
    as (_ & _ & Hname).
  split; [| split].
  - apply (Hword "F"%char "OO"); reflexivity.
  - apply Hnone. reflexivity.
  - apply (Hname "${" "FOO" ":-/tmp}"); try reflexivity. discriminate.
Defined.

(** ** Diagnostics for which the chain asks nothing *)

(** X13.  For a diagnostic that has none of the four codes on which a rule
    consults the definition service (Flake8 F821, Pylance
    reportUndefinedVariable, Pylint E0602:undefined-variable, shellcheck
    SC2154), the chain resolves, with an answer that depends on the
    diagnostic alone: neither the host, nor the document, nor the range
    has a part in it, and a definition service that rejects does no harm. *)
Theorem chain_without_query (d : Diagnostic) :
  hasSourceWithCode d "Flake8" "F821" = false ->
  hasSourceWithCode d "Pylance" "reportUndefinedVariable" = false ->
  hasSourceWithCode d "Pylint" "E0602:undefined-variable" = false ->
  hasSourceWithCode d "shellcheck" "SC2154" = false ->
  exists answer,
    (answer = true <->
     inTable alwaysIgnoredTable d = true \/
     (sourceIncludes d "Pylance" = true /\ hasDiagnosticCode d = Some false /\
      message d = anonymousNotAccessed)) /\
    forall h doc r, checkIsIgnoredDiagnostic h d doc r = Resolved answer.
Proof.
  intros H1 H2 H3 H4.
  assert (Hchain : forall h doc r b1 b2,
            checkIsAlwaysIgnoredDiagnostic d = Resolved b1 ->
            checkIsIgnoredDiagnosticOnAnonymousFunctionFirstLine d = Resolved b2 ->
            checkIsIgnoredDiagnostic h d doc r = Resolved (b1 || b2)).
  { intros h doc r b1 b2 Hb1 Hb2.
    unfold checkIsIgnoredDiagnostic, checkIsIgnoredDiagnosticOnPythonUndefinedVariable,
      checkIsIgnoredShellcheckSc2154.
    rewrite Hb1, Hb2, H1, H2, H3, H4. now destruct b1, b2. }
  pose proof (checkIsAlwaysIgnoredDiagnostic_table d) as Ha.
  destruct (checkIsIgnoredDiagnosticOnAnonymousFunctionFirstLine_resolves d) as [b2 Hb2].
  exists (inTable alwaysIgnoredTable d || b2). split.
  - rewrite orb_true_iff. split; intros [Ht | Hn]; auto; right.
    + subst b2. now apply anonymous_rule_iff.
    + apply anonymous_rule_iff in Hn. congruence.
  - intros h doc r. now apply Hchain.
Qed.

Lemma chain_without_query_witness :
  exists answer,
    forall h doc r, checkIsIgnoredDiagnostic h docstringDiagnosticLong doc r = Resolved answer.
Proof.
  destruct (chain_without_query docstringDiagnosticLong eq_refl eq_refl eq_refl eq_refl)
    as (answer & _ & Hall).
  now exists answer.
Defined.

(** ** Structured codes *)

Lemma hasSourceWithCode_withCode (d : Diagnostic) (c : string) (location : Uri)
    (src c' : string) :
  code d = CodePlain (CodeString c) ->
  hasSourceWithCode (withCode d (CodeObject (CodeString c) location)) src c'
  = hasSourceWithCode d src c'.
Proof. intros Hc. unfold hasSourceWithCode, sourceIncludes. simpl. now rewrite Hc. Qed.

(** X14.  A code given as an object with a value and a target is treated as
    the plain string of its value: the source test, the chain of rules and
    the message fixer answer alike for both forms, and the task yields the
    same diagnostic, with the code in the form it came in. *)
Theorem structured_code_as_plain
    (h : Host) (ctx : Context) (d : Diagnostic) (c : string) (location : Uri) :
  code d = CodePlain (CodeString c) ->
  checkHasSupportedSource (withCode d (CodeObject (CodeString c) location))
  = checkHasSupportedSource d /\
  (forall doc r,
     checkIsIgnoredDiagnostic h (withCode d (CodeObject (CodeString c) location)) doc r
     = checkIsIgnoredDiagnostic h d doc r) /\
  fixDiagnosticMessagePythonImport (withCode d (CodeObject (CodeString c) location))
  = fixDiagnosticMessagePythonImport d /\
  updateDiagnosticsTask h ctx (withCode d (CodeObject (CodeString c) location))
  = match updateDiagnosticsTask h ctx d with
    | Resolved (Some d') => Resolved (Some (withCode d' (CodeObject (CodeString c) location)))
    | other => other
    end.
Proof.
  intros Hc.
  assert (Hsupported :
            checkHasSupportedSource (withCode d (CodeObject (CodeString c) location))
            = checkHasSupportedSource d) by reflexivity.
  assert (Hchain : forall doc r,
            checkIsIgnoredDiagnostic h (withCode d (CodeObject (CodeString c) location)) doc r
            = checkIsIgnoredDiagnostic h d doc r).
  { intros doc r.
    unfold checkIsIgnoredDiagnostic, checkIsAlwaysIgnoredDiagnostic,
      checkIsIgnoredDiagnosticOnAnonymousFunctionFirstLine,
      checkIsIgnoredDiagnosticOnPythonUndefinedVariable, checkIsIgnoredShellcheckSc2154.
    now rewrite !(hasSourceWithCode_withCode d c location _ _ Hc). }
  assert (Hfix : fixDiagnosticMessagePythonImport
                   (withCode d (CodeObject (CodeString c) location))
                 = fixDiagnosticMessagePythonImport d).
  { unfold fixDiagnosticMessagePythonImport.
    now rewrite !(hasSourceWithCode_withCode d c location _ _ Hc). }
  repeat split; try assumption.
  unfold updateDiagnosticsTask. rewrite Hsupported.
  destruct (checkHasSupportedSource d); simpl; [| reflexivity].
  destruct (getOriginalDocRange _ _ _ _ _) as [r|]; simpl; [| reflexivity].
  destruct (getEmbeddedLanguageTypeOnPosition _ _ _) as [k|]; simpl; [| reflexivity].
  destruct (bool_decide _); simpl; [| reflexivity].
  rewrite Hchain.
  destruct (checkIsIgnoredDiagnostic h d (originalTextDocument ctx) r) as [[|]|]; simpl;
    try reflexivity.
  unfold adjustedDiagnostic. rewrite Hfix. reflexivity.
Qed.

Lemma structured_code_as_plain_witness :
  checkIsIgnoredDiagnostic (pythonHost [])
    (withCode docstringDiagnosticLong
       (CodeObject (CodeString "C0114:missing-module-docstring") recipeUri))
    (recipeDocument "") someRange
  = Resolved true.
Proof.
  destruct (structured_code_as_plain (pythonHost []) pythonContext docstringDiagnosticLong
              "C0114:missing-module-docstring" recipeUri eq_refl) as (_ & Hchain & _).
  rewrite Hchain. reflexivity.
Defined.

(** ** reviewDiagnostics as a whole *)

Lemma updateDiagnostics_published_any_collections (h : Host) (time : nat -> nat) (uri : Uri)
    (dc dc' : DiagnosticCollections) :
  published (updateDiagnostics h time uri dc) = published (updateDiagnostics h time uri dc') /\
  settled (updateDiagnostics h time uri dc) = settled (updateDiagnostics h time uri dc').
Proof.
  unfold updateDiagnostics.
  destruct (updateDiagnosticsSetup h uri) as [[ctx|]|]; simpl; try (split; reflexivity).
  destruct (promiseAll _); simpl; split; reflexivity.
Qed.

Lemma updateDiagnostics_published_length (h : Host) (time : nat -> nat) (uri : Uri)
    (dc : DiagnosticCollections) :
  length (published (updateDiagnostics h time uri dc)) <= 1.
Proof.
  unfold updateDiagnostics.
  destruct (updateDiagnosticsSetup h uri) as [[ctx|]|]; simpl; try lia.
  destruct (promiseAll _); simpl; lia.
Qed.

Lemma reviewStep_fold (h : Host) (times : Uri -> nat -> nat) (dc : DiagnosticCollections)
    (uris : list Uri) (acc : Run) :
  published (fold_left (reviewStep h times) uris acc)
  = (published acc
     ++ flat_map (fun uri => published (updateDiagnostics h (times uri) uri dc)) uris)%list /\
  (settled (fold_left (reviewStep h times) uris acc) = Resolved tt <->
   settled acc = Resolved tt /\
   forall uri, uri ∈ uris -> settled (updateDiagnostics h (times uri) uri dc) = Resolved tt).
Proof.
  revert acc. induction uris as [|uri uris IH]; intros acc; simpl.
  - rewrite app_nil_r. split; [reflexivity |]. split; [| now intros [? _]].
    intros H. split; [exact H |]. intros uri Huri. now apply elem_of_nil in Huri.
  - destruct (IH (reviewStep h times acc uri)) as [Hpub Hset].
    destruct (updateDiagnostics_published_any_collections h (times uri) uri
                (collections acc) dc) as [Epub Eset].
    split.
    + rewrite Hpub. unfold reviewStep at 1. simpl. rewrite Epub. now rewrite <- app_assoc.
    + rewrite Hset. unfold reviewStep at 1. simpl. rewrite Eset. split.
      * intros [Hstep Hrest]. destruct (settled acc) as [[]|]; simpl in Hstep; [| discriminate].
        split; [reflexivity |]. intros u Hu.
        apply elem_of_cons in Hu as [->|Hu]; [exact Hstep | now apply Hrest].
      * intros [Hacc Hall]. split.
        -- rewrite Hacc. simpl. apply Hall. left.
        -- intros u Hu. apply Hall. now right.
Qed.

(** X15.  [reviewDiagnostics] makes, in some order, exactly the calls of
    [set] that [updateDiagnostics] makes for each of the URIs holding
    diagnostics, at most one per URI: what a call publishes does not depend
    on what the collections hold.  It resolves exactly when each of these
    calls resolves; a call that rejects does not keep the others from
    publishing. *)
Theorem reviewDiagnostics_calls
    (h : Host) (finish : nat -> nat) (times : Uri -> nat -> nat) (dc : DiagnosticCollections) :
  published (reviewDiagnostics h finish times dc)
  ≡ₚ flat_map (fun uri => published (updateDiagnostics h (times uri) uri dc))
       (map fst (getAllDiagnostics h)) /\
  length (published (reviewDiagnostics h finish times dc)) <= length (getAllDiagnostics h) /\
  (settled (reviewDiagnostics h finish times dc) = Resolved tt <->
   forall uri, uri ∈ map fst (getAllDiagnostics h) ->
               settled (updateDiagnostics h (times uri) uri dc) = Resolved tt).
Proof.
  unfold reviewDiagnostics.
  destruct (reviewStep_fold h times dc
              (completionOrder finish (map fst (getAllDiagnostics h)))
              (mkRun (Resolved tt) dc [])) as [Hpub Hset].
  pose proof (completionOrder_perm finish (map fst (getAllDiagnostics h))) as Hperm.
  assert (Hflat : published (fold_left (reviewStep h times)
                               (completionOrder finish (map fst (getAllDiagnostics h)))
                               (mkRun (Resolved tt) dc []))
                  ≡ₚ flat_map (fun uri => published (updateDiagnostics h (times uri) uri dc))
                       (map fst (getAllDiagnostics h))).
  { rewrite Hpub. simpl. now apply Permutation_flat_map. }
  split; [exact Hflat |]. split.
  - rewrite Hflat. clear. induction (getAllDiagnostics h) as [|[uri ds] l IH]; simpl; [lia |].
    rewrite length_app.
    pose proof (updateDiagnostics_published_length h (times uri) uri dc). lia.
  - rewrite Hset. simpl. split.
    + intros [_ Hall] uri Huri. apply Hall. now rewrite Hperm.
    + intros Hall. split; [reflexivity |]. intros uri Huri. apply Hall. now rewrite <- Hperm.
Qed.

(** ** The fallback of the SC2154 rule *)

(** X16.  For a shellcheck SC2154 diagnostic, whatever the text of the
    mapped range, when the definition service finds nothing the rule
    matches exactly when the whole message is a variable name followed by
    " is referenced but not assigned." and that name is one of the common
    directories; text before the name or after the full stop, or a name
    outside the set, leaves the diagnostic to be published. *)
Theorem sc2154_fallback_on_message
    (h : Host) (d : Diagnostic) (doc : TextDocument) (r : Range) :
  hasSourceWithCode d "shellcheck" "SC2154" = true ->
  getDefinition h doc (sc2154Position doc r) = Resolved [] ->
  (checkIsIgnoredShellcheckSc2154 h d doc r = Resolved true <->
   exists w, isIdentifier w = true /\
             message d = w ++ " is referenced but not assigned." /\
             w ∈ commonDirectoriesVariables h) /\
  (checkIsIgnoredShellcheckSc2154 h d doc r = Resolved false <->
   forall w, isIdentifier w = true ->
             message d = w ++ " is referenced but not assigned." ->
             w ∉ commonDirectoriesVariables h).
Proof.
  intros Hsc Hdefs. rewrite (sc2154_rule_value h d doc r Hsc [] Hdefs).
  pose proof (commonDirectoriesHas_spec h (message d)) as Hspec.
  destruct (commonDirectoriesHas h (sc2154VariableName (message d))).
  - split.
    + split; [intros _; now apply Hspec | reflexivity].
    + split; [discriminate |]. intros Hnone.
      destruct Hspec as [Hspec _]. destruct (Hspec eq_refl) as (w & Hw & Hmsg & Hin).
      now destruct (Hnone w Hw Hmsg).
  - split.
    + split; [discriminate |]. intros Hex. apply Hspec in Hex. discriminate.
    + split; [| reflexivity]. intros _ w Hw Hmsg Hin.
      destruct Hspec as [_ Hspec]. discriminate Hspec. now exists w.
Qed.

Lemma sc2154_fallback_on_message_witness :
  checkIsIgnoredShellcheckSc2154 workdirHost workdirDiagnostic (recipeDocument "${FOO}")
    someRange = Resolved true /\
  checkIsIgnoredShellcheckSc2154 workdirHost
    (plainDiagnostic (Some "shellcheck") (CodePlain (CodeString "SC2154"))
       "warning: WORKDIR is referenced but not assigned.")
    (recipeDocument "${FOO}") someRange = Resolved false.
Proof.
  split.
  - destruct (sc2154_fallback_on_message workdirHost workdirDiagnostic
                (recipeDocument "${FOO}") someRange eq_refl eq_refl) as [Htrue _].
    apply Htrue. exists "WORKDIR". repeat split; reflexivity.
  - destruct (sc2154_fallback_on_message workdirHost
                (plainDiagnostic (Some "shellcheck") (CodePlain (CodeString "SC2154"))
                   "warning: WORKDIR is referenced but not assigned.")
                (recipeDocument "${FOO}") someRange eq_refl eq_refl) as [_ Hfalse].
    apply Hfalse. intros w Hw Hmsg.
    assert (E : sc2154VariableName "warning: WORKDIR is referenced but not assigned."
                = Some w) by now apply sc2154VariableName_spec.
    discriminate E.
Defined.
